(** * Session controller of the browser automation backend

    A shallow embedding of [src/browser_agent.py] (class [BrowserAgent]) and
    the properties of its public methods.

    The Playwright driver is an external collaborator: it is modelled as a
    record of operations over an abstract world [W], each of which either
    returns a value or raises a Python exception below [Exception].  Every
    driver call of the source is one such operation, and is recorded in a
    trace, so that "which engine calls were made" is a property of a run.
    The methods are coroutines run one at a time, as the controller
    expects: a method body is a function of the state.  The calls to
    [logger] write to the log and nothing else; they are left out. *)

From Stdlib Require Import String Ascii ZArith List Bool Lia.
From Stdlib.Strings Require Import Byte.
From Stdlib Require DecimalString.
From Stdlib Require QArith_base.
Import ListNotations.
Open Scope string_scope.
Open Scope Z_scope.
Set Warnings "-register-all".

(** ** Python values, dictionaries and exceptions *)

Module Py.

(** The JSON-like values that the controller puts in its result
    dictionaries.  A float is kept as the exact rational it denotes. *)
Inductive pyval : Type :=
| PNone
| PBool (b : bool)
| PInt (z : Z)
| PFloat (q : QArith_base.Q)
| PStr (s : string)
| PList (l : list pyval)
| PDict (d : list (string * pyval)).

(** A [dict] literal with string keys, in insertion order. *)
Definition dict : Type := list (string * pyval).

Fixpoint get (d : dict) (k : string) : option pyval :=
  match d with
  | [] => None
  | (k', v) :: d' => if String.eqb k k' then Some v else get d' k
  end.

Definition has_key (d : dict) (k : string) : bool :=
  match get d k with Some _ => true | None => false end.

(** Exceptions below [Exception].  [except PlaywrightTimeoutError] matches
    the first constructor only; [except Exception] matches both. *)
Inductive exn : Type :=
| PlaywrightTimeoutError (msg : string)
| PyException (cls : string) (msg : string).

(** [str(e)] *)
Definition str (e : exn) : string :=
  match e with
  | PlaywrightTimeoutError msg => msg
  | PyException _ msg => msg
  end.

Definition is_timeout (e : exn) : bool :=
  match e with
  | PlaywrightTimeoutError _ => true
  | PyException _ _ => false
  end.

(** What a call does: it returns or it raises. *)
Inductive outcome (A : Type) : Type :=
| Returned (a : A)
| Raised (e : exn).
Arguments Returned {A} a.
Arguments Raised {A} e.

(** [str.startswith(prefix)] *)
Definition startswith (s p : string) : bool := String.prefix p s.

(** [str.startswith((p1, p2, ...))] : any of the prefixes. *)
Definition startswith_any (s : string) (ps : list string) : bool :=
  existsb (startswith s) ps.

(** *** [int / 2] : true division of an [int]

    CPython returns the correctly rounded double (round half to even on a
    53 bit significand) and raises [OverflowError] when that double would
    be infinite. *)
Definition round53 (z : Z) : Z :=
  let a := Z.abs z in
  let n := Z.log2 a + 1 in
  if n <=? 53 then z
  else
    let k := n - 53 in
    let q := Z.shiftr a k in
    let r := Z.land a (Z.ones k) in
    let half := Z.shiftl 1 (k - 1) in
    let q' := if (half <? r) || ((r =? half) && Z.odd q) then q + 1 else q in
    Z.sgn z * Z.shiftl q' k.

Definition truediv2 (z : Z) : outcome QArith_base.Q :=
  let m := round53 z in
  if 2 ^ 1025 <=? Z.abs m
  then Raised (PyException "OverflowError"
                 "integer division result too large for a float")
  else Returned (QArith_base.Qmake m 2).

(** *** [base64.b64encode(bs).decode("utf-8")] *)
Definition b64_alphabet : string :=
  "ABCDEFGHIJKLMNOPQRSTUVWXYZabcdefghijklmnopqrstuvwxyz0123456789+/".

Definition b64_digit (n : N) : ascii :=
  match String.get (N.to_nat n) b64_alphabet with
  | Some c => c
  | None => "="%char
  end.

Definition sextet (n : N) (i : N) : ascii :=
  b64_digit (N.land (N.shiftr n (6 * i)) 63).

Fixpoint b64encode (bs : list byte) : string :=
  match bs with
  | [] => ""
  | [a] =>
      let n := N.shiftl (Byte.to_N a) 16 in
      String (sextet n 3) (String (sextet n 2) "==")
  | [a; b] =>
      let n := N.lor (N.shiftl (Byte.to_N a) 16) (N.shiftl (Byte.to_N b) 8) in
      String (sextet n 3) (String (sextet n 2) (String (sextet n 1) "="))
  | a :: b :: c :: rest =>
      let n := N.lor (N.lor (N.shiftl (Byte.to_N a) 16)
                            (N.shiftl (Byte.to_N b) 8)) (Byte.to_N c) in
      String (sextet n 3) (String (sextet n 2)
        (String (sextet n 1) (String (sextet n 0) (b64encode rest))))
  end.

End Py.
Import Py.

(** ** The browser engine (Playwright), an external collaborator *)

Module Engine.

(** Handles of the driver's objects.  A handle is a Python object and is
    truthy, so a field is falsy exactly when it holds [None]. *)
Inductive PlaywrightH : Type := Playwright (id : N).
Inductive BrowserH : Type := Browser (id : N).
Inductive ContextH : Type := BrowserContext (id : N).
Inductive PageH : Type := Page (id : N).

(** The [wait_until=] argument of [goto] and [reload], and the state
    [wait_for_load_state] waits for. *)
Inductive wait_until : Type := Load | DomContentLoaded | NetworkIdle | Commit.

(** The object returned by [goto]; the controller reads [response.status]. *)
Record Response : Type := { status : Z }.

(** Cookies are passed through and never interpreted. *)
Definition cookie : Type := dict.

(** One field per driver call the controller makes.  A call takes the world
    to a new world and returns or raises; [page_url] is the [page.url]
    property, a read of the driver's cached state that makes no call. *)
Record t (W : Type) : Type := {
  async_playwright_start : W -> W * outcome PlaywrightH;
  chromium_launch : PlaywrightH -> bool -> W -> W * outcome BrowserH;
  browser_new_context : BrowserH -> W -> W * outcome ContextH;
  context_new_page : ContextH -> W -> W * outcome PageH;
  page_set_default_navigation_timeout : PageH -> Z -> W -> W * outcome unit;
  page_goto : PageH -> string -> wait_until -> W -> W * outcome (option Response);
  page_wait_for_load_state : PageH -> wait_until -> QArith_base.Q -> W -> W * outcome unit;
  page_url : PageH -> W -> string;
  page_title : PageH -> W -> W * outcome string;
  page_reload : PageH -> wait_until -> W -> W * outcome (option Response);
  page_click : PageH -> string -> Z -> W -> W * outcome unit;
  page_fill : PageH -> string -> string -> Z -> W -> W * outcome unit;
  page_evaluate : PageH -> string -> W -> W * outcome pyval;
  page_screenshot : PageH -> string -> W -> W * outcome (list byte);
  browser_close : BrowserH -> W -> W * outcome unit;
  playwright_stop : PlaywrightH -> W -> W * outcome unit;
  context_cookies : ContextH -> W -> W * outcome (list cookie);
  context_add_cookies : ContextH -> list cookie -> W -> W * outcome unit;
  context_delete_cookies : ContextH -> list cookie -> W -> W * outcome unit
}.

Arguments async_playwright_start {W} _.
Arguments chromium_launch {W} _.
Arguments browser_new_context {W} _.
Arguments context_new_page {W} _.
Arguments page_set_default_navigation_timeout {W} _.
Arguments page_goto {W} _.
Arguments page_wait_for_load_state {W} _.
Arguments page_url {W} _.
Arguments page_title {W} _.
Arguments page_reload {W} _.
Arguments page_click {W} _.
Arguments page_fill {W} _.
Arguments page_evaluate {W} _.
Arguments page_screenshot {W} _.
Arguments browser_close {W} _.
Arguments playwright_stop {W} _.
Arguments context_cookies {W} _.
Arguments context_add_cookies {W} _.
Arguments context_delete_cookies {W} _.

(** The calls, as they appear in a trace. *)
Inductive event : Type :=
| EvAsyncPlaywrightStart
| EvChromiumLaunch (pw : PlaywrightH) (headless : bool)
| EvNewContext (b : BrowserH)
| EvNewPage (c : ContextH)
| EvSetDefaultNavigationTimeout (p : PageH) (timeout : Z)
| EvGoto (p : PageH) (url : string) (wu : wait_until)
| EvWaitForLoadState (p : PageH) (st : wait_until) (timeout : QArith_base.Q)
| EvTitle (p : PageH)
| EvReload (p : PageH) (wu : wait_until)
| EvClick (p : PageH) (selector : string) (timeout : Z)
| EvFill (p : PageH) (selector text : string) (timeout : Z)
| EvEvaluate (p : PageH) (script : string)
| EvScreenshot (p : PageH) (type : string)
| EvBrowserClose (b : BrowserH)
| EvPlaywrightStop (pw : PlaywrightH)
| EvCookies (c : ContextH)
| EvAddCookies (c : ContextH) (cookies : list cookie)
| EvDeleteCookies (c : ContextH) (cookies : list cookie).

Definition is_reload (ev : event) : bool :=
  match ev with EvReload _ _ => true | _ => false end.

End Engine.
Import Engine.

(** ** The session and the monad of the controller's methods *)

(** [BrowserAgent.__init__] : the four fields, all [None]. *)
Record BrowserAgent : Type := {
  browser : option BrowserH;
  context : option ContextH;
  page : option PageH;
  playwright : option PlaywrightH
}.

Definition __init__ : BrowserAgent :=
  {| browser := None; context := None; page := None; playwright := None |}.

Section Monad.

Context {W : Type}.

(** What a method runs in: the agent ([self]), the engine's world and the
    trace of the driver calls made so far, oldest first. *)
Record state : Type := {
  self : BrowserAgent;
  world : W;
  trace : list event
}.

(** A method body: it may read and assign the fields of [self], call the
    driver, and return or raise. *)
Definition M (A : Type) : Type := state -> state * outcome A.

Definition ret {A} (a : A) : M A := fun s => (s, Returned a).

Definition raise {A} (e : exn) : M A := fun s => (s, Raised e).

Definition bind {A B} (m : M A) (f : A -> M B) : M B :=
  fun s =>
    match m s with
    | (s', Returned a) => f a s'
    | (s', Raised e) => (s', Raised e)
    end.

(** [try: body  except Exception as e: handler e] *)
Definition try_except {A} (body : M A) (handler : exn -> M A) : M A :=
  fun s =>
    match body s with
    | (s', Returned a) => (s', Returned a)
    | (s', Raised e) => handler e s'
    end.

(** [try: body  except PlaywrightTimeoutError as e: handler e] : any other
    exception passes through. *)
Definition try_except_timeout {A} (body : M A) (handler : exn -> M A) : M A :=
  try_except body (fun e => if is_timeout e then handler e else raise e).

(** A call of the driver, [await]ed where the source awaits it: the world
    moves and the call is added to the trace. *)
Definition call {A} (ev : event) (op : W -> W * outcome A) : M A :=
  fun s =>
    let (w', r) := op (world s) in
    ({| self := self s; world := w'; trace := trace s ++ [ev] |}, r).

Definition read {A} (f : BrowserAgent -> A) : M A :=
  fun s => (s, Returned (f (self s))).

Definition assign (f : BrowserAgent -> BrowserAgent) : M unit :=
  fun s => ({| self := f (self s); world := world s; trace := trace s |},
            Returned tt).

(** [self.x.attr] where the field holds [None]. *)
Definition attribute_error (attr : string) : exn :=
  PyException "AttributeError"
    ("'NoneType' object has no attribute '" ++ attr ++ "'").

(** [self.x.attr], reading the field at the time of the access. *)
Definition deref {H} (f : BrowserAgent -> option H) (attr : string) : M H :=
  fun s =>
    match f (self s) with
    | Some h => (s, Returned h)
    | None => (s, Raised (attribute_error attr))
    end.

End Monad.

Arguments state W : clear implicits.
Arguments M W A : clear implicits.

Declare Scope py_scope.
Delimit Scope py_scope with py.
Notation "x <- m ;; k" := (bind m (fun x => k))
  (at level 61, m at next level, right associativity) : py_scope.
Notation "m ;; k" := (bind m (fun _ => k))
  (at level 61, right associativity) : py_scope.

(** ** The controller: class [BrowserAgent] *)

Section Controller.

Context {W : Type}.
Variable eng : Engine.t W.
Local Open Scope py_scope.

(** [self.page.url] *)
Definition self_page_url : M W string :=
  fun s =>
    match page (self s) with
    | Some p => (s, Returned (page_url eng p (world s)))
    | None => (s, Raised (attribute_error "url"))
    end.

(** [await self.page.title()] *)
Definition self_page_title : M W string :=
  p <- deref page "title" ;;
  call (EvTitle p) (page_title eng p).

Definition NOT_INITIALIZED : dict :=
  [("error", PStr "Browser not initialized. Call /browser/start first.")].

Definition NO_ACTIVE_PAGE : dict :=
  [("error", PStr "No active page. Call /browser/start first.")].

(** [async def start(self)] *)
Definition start : M W dict :=
  try_except
    (pw <- call EvAsyncPlaywrightStart (async_playwright_start eng) ;;
     assign (fun a => {| browser := browser a; context := context a;
                         page := page a; playwright := Some pw |}) ;;
     pw <- deref playwright "chromium" ;;
     b <- call (EvChromiumLaunch pw false) (chromium_launch eng pw false) ;;
     assign (fun a => {| browser := Some b; context := context a;
                         page := page a; playwright := playwright a |}) ;;
     b <- deref browser "new_context" ;;
     c <- call (EvNewContext b) (browser_new_context eng b) ;;
     assign (fun a => {| browser := browser a; context := Some c;
                         page := page a; playwright := playwright a |}) ;;
     c <- deref context "new_page" ;;
     p <- call (EvNewPage c) (context_new_page eng c) ;;
     assign (fun a => {| browser := browser a; context := context a;
                         page := Some p; playwright := playwright a |}) ;;
     ret [("status", PStr "Browser started")])
    (fun e => ret [("error", PStr ("Failed to start browser: " ++ str e))]).

(** [if not url.startswith(('http://', 'https://')): url = f'https://{url}'] *)
Definition normalize_url (url : string) : string :=
  if negb (startswith_any url ["http://"; "https://"])
  then "https://" ++ url
  else url.

(** The [try] block of lines 57-86: the primary path and its
    [except PlaywrightTimeoutError] handler. *)
Definition navigate_primary (url : string) (timeout : Z) : M W dict :=
  try_except_timeout
    (p <- deref page "goto" ;;
     response <- call (EvGoto p url DomContentLoaded)
                       (page_goto eng p url DomContentLoaded) ;;
     p <- deref page "wait_for_load_state" ;;
     budget <- (fun s => (s, truediv2 timeout)) ;;
     call (EvWaitForLoadState p NetworkIdle budget)
           (page_wait_for_load_state eng p NetworkIdle budget) ;;
     final_url <- self_page_url ;;
     title <- self_page_title ;;
     ret [("url", PStr final_url);
          ("title", PStr title);
          ("status", PInt (match response with
                           | Some r => status r
                           | None => 200
                           end));
          ("message", PStr ("Successfully navigated to " ++ final_url))])
    (fun e =>
       final_url <- self_page_url ;;
       title <- self_page_title ;;
       ret [("url", PStr final_url);
            ("title", PStr title);
            ("status", PInt 200);
            ("warning", PStr ("Navigation timed out but continuing with available content: " ++ str e));
            ("message", PStr ("Navigation to " ++ url ++ " timed out, but continuing with available content"))]).

(** The handler of lines 88-109.  The [return] inside the inner [try] is
    an early exit: the inner block yields [Some result] when it returns
    and [None] when control falls through to the final [return]. *)
Definition navigate_recover (url : string) (e : exn) : M W dict :=
  let error_msg := "Navigation to " ++ url ++ " failed: " ++ str e in
  early <- try_except
             (pg <- read page ;;
              match pg with
              | Some _ =>
                  p <- deref page "reload" ;;
                  call (EvReload p DomContentLoaded)
                        (page_reload eng p DomContentLoaded) ;;
                  u <- self_page_url ;;
                  t <- self_page_title ;;
                  ret (Some [("url", PStr u);
                             ("title", PStr t);
                             ("status", PInt 200);
                             ("warning", PStr ("Recovered from navigation error: " ++ str e));
                             ("message", PStr "Page recovered after navigation error")])
              | None => ret None
              end)
             (fun reload_error => ret None) ;;
  match early with
  | Some result => ret result
  | None =>
      ret [("error", PStr error_msg);
           ("suggestion", PStr "The page may have loaded partially. Try getting content or taking a screenshot.")]
  end.

(** [async def navigate(self, url, timeout=30000)] *)
Definition navigate (url : string) (timeout : Z) : M W dict :=
  pg <- read page ;;
  match pg with
  | None => ret NOT_INITIALIZED
  | Some _ =>
      let url := normalize_url url in
      try_except
        (p <- deref page "set_default_navigation_timeout" ;;
         call (EvSetDefaultNavigationTimeout p timeout)
               (page_set_default_navigation_timeout eng p timeout) ;;
         navigate_primary url timeout)
        (navigate_recover url)
  end.

Definition DEFAULT_TIMEOUT : Z := 30000.

(** [async def click(self, selector)] *)
Definition click (selector : string) : M W dict :=
  pg <- read page ;;
  match pg with
  | None => ret NOT_INITIALIZED
  | Some _ =>
      try_except
        (p <- deref page "click" ;;
         call (EvClick p selector 30000) (page_click eng p selector 30000) ;;
         ret [("status", PStr ("Clicked element: " ++ selector))])
        (fun e =>
           if is_timeout e
           then ret [("error", PStr ("Click timed out: " ++ selector))]
           else ret [("error", PStr ("Click failed: " ++ str e))])
  end.

(** [async def type_text(self, selector, text)] *)
Definition type_text (selector text : string) : M W dict :=
  pg <- read page ;;
  match pg with
  | None => ret NOT_INITIALIZED
  | Some _ =>
      try_except
        (p <- deref page "fill" ;;
         call (EvFill p selector text 30000)
               (page_fill eng p selector text 30000) ;;
         ret [("status", PStr ("Typed text into: " ++ selector))])
        (fun e =>
           if is_timeout e
           then ret [("error", PStr ("Type text timed out: " ++ selector))]
           else ret [("error", PStr ("Type text failed: " ++ str e))])
  end.

(** The script handed to [page.evaluate]; it runs inside the browser. *)
Definition CONTENT_SCRIPT : string :=
  "() => {
                // Try to get the main content
                let content = '';
                
                // Try common content selectors
                const selectors = [
                    'main',
                    'article',
                    '.main-content',
                    '#content',
                    '.content',
                    'body'
                ];
                
                for (const selector of selectors) {
                    const element = document.querySelector(selector);
                    if (element) {
                        content = element.innerText || '';
                        if (content.trim().length > 0) break;
                    }
                }
                
                // If no content found, fall back to body
                if (!content || content.trim().length === 0) {
                    content = document.body.innerText || '';
                }
                
                // Clean up the content
                content = content
                    .replace(/\s+/g, ' ')
                    .trim()
                    .substring(0, 10000);  // Limit content length
                    
                return content;
            }".

(** [async def get_content(self)] *)
Definition get_content : M W dict :=
  pg <- read page ;;
  match pg with
  | None => ret NO_ACTIVE_PAGE
  | Some _ =>
      try_except
        (title <- self_page_title ;;
         p <- deref page "evaluate" ;;
         content <- call (EvEvaluate p CONTENT_SCRIPT)
                          (page_evaluate eng p CONTENT_SCRIPT) ;;
         u <- self_page_url ;;
         ret [("title", PStr title); ("content", content); ("url", PStr u)])
        (fun e =>
           pg <- read page ;;
           u <- match pg with
                | Some _ => self_page_url
                | None => ret ""
                end ;;
           ret [("error", PStr ("Failed to get page content: " ++ str e));
                ("title", PStr "");
                ("content", PStr "");
                ("url", PStr u)])
  end.

(** [async def take_screenshot(self)] *)
Definition take_screenshot : M W dict :=
  pg <- read page ;;
  match pg with
  | None => ret NOT_INITIALIZED
  | Some _ =>
      try_except
        (p <- deref page "screenshot" ;;
         screenshot <- call (EvScreenshot p "png") (page_screenshot eng p "png") ;;
         ret [("screenshot", PStr (b64encode screenshot));
              ("type", PStr "image/png")])
        (fun e => ret [("error", PStr ("Screenshot failed: " ++ str e))])
  end.

(** [async def close(self)] : no [try] around the two driver calls. *)
Definition close : M W dict :=
  b <- read browser ;;
  match b with
  | Some _ =>
      b <- deref browser "close" ;;
      call (EvBrowserClose b) (browser_close eng b)
  | None => ret tt
  end ;;
  pw <- read playwright ;;
  match pw with
  | Some _ =>
      pw <- deref playwright "stop" ;;
      call (EvPlaywrightStop pw) (playwright_stop eng pw)
  | None => ret tt
  end ;;
  assign (fun a => {| browser := None; context := context a;
                      page := page a; playwright := playwright a |}) ;;
  assign (fun a => {| browser := browser a; context := None;
                      page := page a; playwright := playwright a |}) ;;
  assign (fun a => {| browser := browser a; context := context a;
                      page := None; playwright := playwright a |}) ;;
  assign (fun a => {| browser := browser a; context := context a;
                      page := page a; playwright := None |}) ;;
  ret [("status", PStr "Browser closed")].

(** [async def get_cookies(self)] *)
Definition get_cookies : M W dict :=
  pg <- read page ;;
  match pg with
  | None => ret NOT_INITIALIZED
  | Some _ =>
      try_except
        (c <- deref context "cookies" ;;
         cookies <- call (EvCookies c) (context_cookies eng c) ;;
         ret [("cookies", PList (map PDict cookies))])
        (fun e => ret [("error", PStr ("Failed to get cookies: " ++ str e))])
  end.

(** [async def add_cookies(self, cookies)] *)
Definition add_cookies (cookies : list cookie) : M W dict :=
  pg <- read page ;;
  match pg with
  | None => ret NOT_INITIALIZED
  | Some _ =>
      try_except
        (c <- deref context "add_cookies" ;;
         call (EvAddCookies c cookies) (context_add_cookies eng c cookies) ;;
         ret [("status", PStr "Cookies added")])
        (fun e => ret [("error", PStr ("Failed to add cookies: " ++ str e))])
  end.

(** [async def delete_cookies(self, cookies)] *)
Definition delete_cookies (cookies : list cookie) : M W dict :=
  pg <- read page ;;
  match pg with
  | None => ret NOT_INITIALIZED
  | Some _ =>
      try_except
        (c <- deref context "delete_cookies" ;;
         call (EvDeleteCookies c cookies)
               (context_delete_cookies eng c cookies) ;;
         ret [("status", PStr "Cookies deleted")])
        (fun e => ret [("error", PStr ("Failed to delete cookies: " ++ str e))])
  end.

(** *** The public interface, call by call *)

(** The methods other than [start] and [close]. *)
Inductive action : Type :=
| Navigate (url : string) (timeout : Z)
| Click (selector : string)
| TypeText (selector text : string)
| GetContent
| TakeScreenshot
| GetCookies
| AddCookies (cookies : list cookie)
| DeleteCookies (cookies : list cookie).

Inductive method : Type :=
| Start
| Close
| Act (a : action).

Definition perform (a : action) : M W dict :=
  match a with
  | Navigate url timeout => navigate url timeout
  | Click selector => click selector
  | TypeText selector text => type_text selector text
  | GetContent => get_content
  | TakeScreenshot => take_screenshot
  | GetCookies => get_cookies
  | AddCookies cookies => add_cookies cookies
  | DeleteCookies cookies => delete_cookies cookies
  end.

Definition invoke (m : method) : M W dict :=
  match m with
  | Start => start
  | Close => close
  | Act a => perform a
  end.

(** A caller that makes the calls one after the other on the same agent,
    whatever each one returned or raised. *)
Fixpoint run (ms : list method) (s : state W) : state W :=
  match ms with
  | [] => s
  | m :: ms' => run ms' (fst (invoke m s))
  end.

(** A fresh agent in world [w]. *)
Definition fresh (w : W) : state W :=
  {| self := __init__; world := w; trace := [] |}.

End Controller.

(** ** Engine stubs

    A scripted engine for concrete runs: each driver call either raises
    the exception planned for it or succeeds in the simplest way.  The
    world is the page the browser shows. *)

Module Stub.

Record world : Type := {
  shown_url : string;
  shown_title : string
}.

Definition blank : world :=
  {| shown_url := "about:blank"; shown_title := "" |}.

Definition example_com : world :=
  {| shown_url := "https://example.com/"; shown_title := "Example Domain" |}.

(** The driver calls a plan can make fail. *)
Inductive op : Type :=
| OStart | OLaunch | ONewContext | ONewPage | OSetTimeout | OGoto | OWait
| OTitle | OReload | OClick | OFill | OEvaluate | OScreenshot
| OBrowserClose | OStop | OCookies.

Definition op_eq_dec (a b : op) : {a = b} + {a <> b}.
Proof. decide equality. Defined.

(** The exception, if any, that each call raises. *)
Definition plan : Type := op -> option exn.

Definition healthy : plan := fun _ => None.

(** [failing o e f] : as [f], but call [o] raises [e]. *)
Definition failing (o : op) (e : exn) (f : plan) : plan :=
  fun o' => if op_eq_dec o o' then Some e else f o'.

Definition answer {A} (fault : option exn) (w : world) (a : A)
  : world * outcome A :=
  match fault with
  | Some e => (w, Raised e)
  | None => (w, Returned a)
  end.

Definition engine (f : plan) : Engine.t world := {|
  async_playwright_start := fun w => answer (f OStart) w (Playwright 0);
  chromium_launch := fun _ _ w => answer (f OLaunch) w (Browser 1);
  browser_new_context := fun _ w => answer (f ONewContext) w (BrowserContext 2);
  context_new_page := fun _ w => answer (f ONewPage) w (Page 3);
  page_set_default_navigation_timeout := fun _ _ w => answer (f OSetTimeout) w tt;
  page_goto := fun _ url _ w =>
    match f OGoto with
    | Some e => (w, Raised e)
    | None => ({| shown_url := url; shown_title := "Title of " ++ url |},
               Returned (Some {| status := 200 |}))
    end;
  page_wait_for_load_state := fun _ _ _ w => answer (f OWait) w tt;
  page_url := fun _ w => shown_url w;
  page_title := fun _ w => answer (f OTitle) w (shown_title w);
  page_reload := fun _ _ w => answer (f OReload) w (Some {| status := 200 |});
  page_click := fun _ _ _ w => answer (f OClick) w tt;
  page_fill := fun _ _ _ _ w => answer (f OFill) w tt;
  page_evaluate := fun _ _ w => answer (f OEvaluate) w (PStr "Example Domain");
  page_screenshot := fun _ _ w => answer (f OScreenshot) w [x89; x50; x4e; x47]%byte;
  browser_close := fun _ w => answer (f OBrowserClose) w tt;
  playwright_stop := fun _ w => answer (f OStop) w tt;
  context_cookies := fun _ w => answer (f OCookies) w [];
  context_add_cookies := fun _ _ w => answer (f OCookies) w tt;
  context_delete_cookies := fun _ _ w => answer (f OCookies) w tt
|}.

(** Engine failures used in the runs below. *)
Definition net_error : exn :=
  PyException "Error" "net::ERR_NAME_NOT_RESOLVED".

Definition context_destroyed : exn :=
  PyException "Error" "Execution context was destroyed, most likely because of a navigation".

Definition target_closed : exn :=
  PyException "Error" "Target page, context or browser has been closed".

Definition timed_out : exn :=
  PlaywrightTimeoutError "Timeout 15000ms exceeded.".

(** The agent after a successful [start] on the healthy engine. *)
Definition started (w : world) : state world :=
  fst (start (engine healthy) (fresh w)).

End Stub.

(** ** Vocabulary of the properties *)

Section Vocabulary.

Context {W : Type}.

(** A method body that returns a value from every state: no exception
    reaches the caller. *)
Definition never_raises {A} (m : M W A) : Prop :=
  forall s, exists s' a, m s = (s', Returned a).

(** A method body that leaves the fields of [self] as they were. *)
Definition keeps_self {A} (m : M W A) : Prop :=
  forall s, self (fst (m s)) = self s.

(** A method body that only adds driver calls to the trace. *)
Definition extends_trace {A} (m : M W A) : Prop :=
  forall s, exists calls, trace (fst (m s)) = (trace s ++ calls)%list.

(** The driver calls a run of [m] from [s] adds to the trace. *)
Definition calls_made {A} (m : M W A) (s : state W) : list event :=
  skipn (length (trace s)) (trace (fst (m s))).

(** A method body that makes no driver call: world and trace stay. *)
Definition makes_no_call {A} (m : M W A) (s : state W) : Prop :=
  world (fst (m s)) = world s /\ trace (fst (m s)) = trace s.

End Vocabulary.

Definition is_set {H} (f : option H) : bool :=
  match f with Some _ => true | None => false end.

(** READY: [start] ran to its end, every field holds a handle. *)
Definition ready (a : BrowserAgent) : bool :=
  is_set (browser a) && is_set (context a) && is_set (page a)
  && is_set (playwright a).



(** The suggestion of [navigate]'s last resort. *)
Definition SUGGESTION : string :=
  "The page may have loaded partially. Try getting content or taking a screenshot.".

(** What [close] returns. *)
Definition CLOSED : dict := [("status", PStr "Browser closed")].

(** A result that reports a failure carries the key [error]. *)
Definition is_error (d : dict) : bool := has_key d "error".

(** The spec's wording, "a scheme is present": the URL begins with a scheme
    name, a letter followed by letters, digits, [+], [-] or [.], and the
    separator [://]. *)
Definition is_alpha (c : ascii) : bool :=
  let n := N_of_ascii c in
  (((65 <=? n) && (n <=? 90)) || ((97 <=? n) && (n <=? 122)))%N.

Definition is_scheme_char (c : ascii) : bool :=
  let n := N_of_ascii c in
  (is_alpha c || ((48 <=? n) && (n <=? 57))
   || (n =? 43) || (n =? 45) || (n =? 46))%N.

Fixpoint scheme_tail (s : string) : bool :=
  match s with
  | EmptyString => false
  | String c s' =>
      if startswith s "://" then true
      else is_scheme_char c && scheme_tail s'
  end.

Definition spec_has_scheme (url : string) : bool :=
  match url with
  | EmptyString => false
  | String c s' => is_alpha c && scheme_tail s'
  end.

(** The normalisation as the spec words it. *)
Definition spec_normalize_url (url : string) : string :=
  if spec_has_scheme url then url else "https://" ++ url.

(** ** Which driver calls a run makes *)

Definition page_eqb (p q : PageH) : bool :=
  match p, q with Page i, Page j => N.eqb i j end.

Definition context_eqb (c d : ContextH) : bool :=
  match c, d with BrowserContext i, BrowserContext j => N.eqb i j end.

Definition is_page (a : BrowserAgent) (p : PageH) : bool :=
  match page a with Some q => page_eqb p q | None => false end.

Definition is_context (a : BrowserAgent) (c : ContextH) : bool :=
  match context a with Some d => context_eqb c d | None => false end.

(** The four calls that bring a browser up. *)
Definition is_launch_step (ev : event) : bool :=
  match ev with
  | EvAsyncPlaywrightStart | EvChromiumLaunch _ _ | EvNewContext _
  | EvNewPage _ => true
  | _ => false
  end.

(** A call on the page or the cookie store that the agent [a] holds:
    neither a launch nor a teardown, nor a call on another handle. *)
Definition on_session (a : BrowserAgent) (ev : event) : bool :=
  match ev with
  | EvSetDefaultNavigationTimeout p _ | EvGoto p _ _
  | EvWaitForLoadState p _ _ | EvTitle p | EvReload p _ | EvClick p _ _
  | EvFill p _ _ _ | EvEvaluate p _ | EvScreenshot p _ => is_page a p
  | EvCookies c | EvAddCookies c _ | EvDeleteCookies c _ => is_context a c
  | EvAsyncPlaywrightStart | EvChromiumLaunch _ _ | EvNewContext _
  | EvNewPage _ | EvBrowserClose _ | EvPlaywrightStop _ => false
  end.

Definition is_goto (ev : event) : bool :=
  match ev with EvGoto _ _ _ => true | _ => false end.


(** ** The routing layer: the browser endpoints of [main.py]

    Every endpoint works on the one agent of the process, [browser_agent].
    A request body is a JSON object read with [request.get]; the model
    covers the bodies whose [url], [selector] and [text] are strings, null
    or absent, and keeps [timeout] as any JSON value. *)

Module Http.

(** What an endpoint hands to the framework: a dictionary to serialise, an
    [HTTPException] it raised, or an exception it did not catch. *)
Inductive reply : Type :=
| Ok (body : dict)
| HTTPException (status_code : Z) (detail : string)
| Unhandled (e : exn).

(** [request.get(key)] for each key: [None] when absent or null. *)
Record request : Type := {
  url : option string;
  selector : option string;
  text : option string;
  timeout : option pyval
}.

(** [not x] for an optional string: [None] and [''] are falsy. *)
Definition falsy (x : option string) : bool :=
  match x with
  | None => true
  | Some EmptyString => true
  | Some (String _ _) => false
  end.

Section Routes.

Context {W : Type}.
Variable eng : Engine.t W.

Definition route : Type := state W -> state W * reply.

(** [raise HTTPException(status_code=..., detail=...)] before any call. *)
Definition reject (status_code : Z) (detail : string) : route :=
  fun s => (s, HTTPException status_code detail).

(** [try: return await m
     except Exception as e: raise HTTPException(status_code=500, detail=str(e))] *)
Definition guarded (m : M W dict) : route :=
  fun s =>
    match m s with
    | (s', Returned d) => (s', Ok d)
    | (s', Raised e) => (s', HTTPException 500 (str e))
    end.


(** [POST /browser/navigate] *)
Definition navigate_to_url (request : request) : route :=
  match url request with
  | Some u =>
      if falsy (Some u) then reject 400 "URL is required"
      else guarded (navigate eng u DEFAULT_TIMEOUT)
  | None => reject 400 "URL is required"
  end.

(** [POST /browser/click] : [timeout] is read and not used. *)
Definition click_element (request : request) : route :=
  let timeout := match timeout request with Some t => t | None => PInt 30000 end in
  match selector request with
  | Some sel =>
      if falsy (Some sel) then reject 400 "Selector is required"
      else guarded (click eng sel)
  | None => reject 400 "Selector is required"
  end.

(** [POST /browser/type] *)
Definition type_text (request : request) : route :=
  match selector request, text request with
  | Some sel, Some txt =>
      if falsy (Some sel) then reject 400 "Selector and text are required"
      else guarded (type_text eng sel txt)
  | _, _ => reject 400 "Selector and text are required"
  end.


(** [GET /browser/screenshot] *)
Definition take_screenshot : route := guarded (take_screenshot eng).

(** [POST /browser/close] *)
Definition close_browser : route := guarded (close eng).

(** [GET /browser/cookies] *)
Definition get_cookies : route := guarded (get_cookies eng).

(** [POST /browser/cookies/add] *)
Definition add_cookies (cookies : list cookie) : route :=
  guarded (add_cookies eng cookies).

(** [POST /browser/cookies/delete] *)
Definition delete_cookies (cookies : list cookie) : route :=
  guarded (delete_cookies eng cookies).



End Routes.

End Http.

(** ** The agent's tool: [BrowserTool] of [crew_workflow.py]

    [json.loads] with the validation of [BrowserToolInput], [str.lower],
    [json.dumps] and [traceback.format_exc] are library code: the tool is
    modelled over them.  The results of the agent are JSON values, which
    [json.dumps] always serialises. *)

Module Tool.

(** [class BrowserToolInput(BaseModel)] *)
Record BrowserToolInput : Type := {
  action : string;
  url : option string;
  selector : option string;
  text : option string;
  cookies : option (list cookie)
}.

(** What [json.loads] followed by the construction of [BrowserToolInput]
    from the loaded data does:
    it yields a validated input, raises a [JSONDecodeError] or a
    [ValueError] (pydantic's validation errors are [ValueError]s), or
    raises something else. *)
Inductive parsed : Type :=
| Valid (validated_input : BrowserToolInput)
| Invalid (e : exn)
| Crashed (e : exn).

(** [not cookies] : [None] and the empty list are falsy. *)
Definition no_cookies (c : option (list cookie)) : bool :=
  match c with
  | None => true
  | Some [] => true
  | Some (_ :: _) => false
  end.

Definition NL : string := String "010" "".

Section Run.

Context {W : Type}.
Variable eng : Engine.t W.
Variable parse : string -> parsed.
Variable lower : string -> string.
Variable json_dumps : dict -> string.
Variable format_exc : exn -> string.
Local Open Scope py_scope.

(** [return json.dumps(result, indent=2)] *)
Definition dumped (m : M W dict) : M W string :=
  result <- m ;; ret (json_dumps result).

(** [async def _arun(self, tool_input)] *)
Definition _arun (tool_input : string) : M W string :=
  try_except
    (match parse tool_input with
     | Invalid e => ret ("Invalid input format: " ++ str e)
     | Crashed e => raise e
     | Valid validated_input =>
         let action := lower (action validated_input) in
         if String.eqb action "navigate" then
           match url validated_input with
           | Some u =>
               if Http.falsy (Some u)
               then ret "Error: URL is required for 'navigate' action"
               else dumped (navigate eng u DEFAULT_TIMEOUT)
           | None => ret "Error: URL is required for 'navigate' action"
           end
         else if String.eqb action "click" then
           match selector validated_input with
           | Some sel =>
               if Http.falsy (Some sel)
               then ret "Error: Selector is required for 'click' action"
               else dumped (click eng sel)
           | None => ret "Error: Selector is required for 'click' action"
           end
         else if String.eqb action "type" then
           match selector validated_input, text validated_input with
           | Some sel, Some txt =>
               if Http.falsy (Some sel)
               then ret "Error: Selector and text are required for 'type' action"
               else dumped (type_text eng sel txt)
           | _, _ => ret "Error: Selector and text are required for 'type' action"
           end
         else if String.eqb action "screenshot" then dumped (take_screenshot eng)
         else if String.eqb action "get_content" then dumped (get_content eng)
         else if String.eqb action "get_cookies" then dumped (get_cookies eng)
         else if String.eqb action "add_cookies" then
           match cookies validated_input with
           | Some cs =>
               if no_cookies (Some cs)
               then ret "Error: Cookies are required for 'add_cookies' action"
               else dumped (add_cookies eng cs)
           | None => ret "Error: Cookies are required for 'add_cookies' action"
           end
         else if String.eqb action "delete_cookies" then
           match cookies validated_input with
           | Some cs =>
               if no_cookies (Some cs)
               then ret "Error: Cookies are required for 'delete_cookies' action"
               else dumped (delete_cookies eng cs)
           | None => ret "Error: Cookies are required for 'delete_cookies' action"
           end
         else ret ("Error: Unknown action '" ++ action ++ "'")
     end)
    (fun e =>
       ret ("Error in browser tool: " ++ str e ++ NL ++ NL ++ format_exc e)).

(** The actions the tool knows, as [_arun] compares them. *)
Definition known_actions : list string :=
  ["navigate"; "click"; "type"; "screenshot"; "get_content"; "get_cookies";
   "add_cookies"; "delete_cookies"].

End Run.

End Tool.

(** Stand-ins for the library functions of the tool, for concrete runs. *)

Module ToolStub.

(** Lower-cases the ASCII letters, as [str.lower] does on ASCII text. *)
Definition lower_char (c : ascii) : ascii :=
  let n := N_of_ascii c in
  if ((65 <=? n) && (n <=? 90))%N then ascii_of_N (n + 32) else c.

Fixpoint lower (s : string) : string :=
  match s with
  | EmptyString => EmptyString
  | String c s' => String (lower_char c) (lower s')
  end.

(** A parser that accepts every input as [i]. *)
Definition accept (i : Tool.BrowserToolInput) : string -> Tool.parsed :=
  fun _ => Tool.Valid i.

(** Writes the keys of a result, one per line. *)
Fixpoint json_dumps (d : dict) : string :=
  match d with
  | [] => ""
  | (k, _) :: d' => k ++ Tool.NL ++ json_dumps d'
  end.

Definition format_exc (e : exn) : string := "Traceback (most recent call last)".

Definition input (action : string) : Tool.BrowserToolInput :=
  {| Tool.action := action; Tool.url := None; Tool.selector := None;
     Tool.text := None; Tool.cookies := None |}.

End ToolStub.

(** ** The language-model client: [openrouter_client.py] and [/chat]

    The OpenAI client library is an external collaborator: one request to
    [chat.completions.create], with the client built for it, either
    returns a completion or raises.  Requests are traced. *)

Module OpenRouter.

(** The exception a request raised, by the [except] clause of [chat] that
    catches it: [RateLimitError] first, then [APIConnectionError], then
    any other [APIError], then any other [Exception]. *)
Inductive api_failure : Type :=
| RateLimitError (msg : string)
| APIConnectionError (msg : string)
| APIError (msg : string)
| OtherException (msg : string).

(** [response.choices[k].message.content] : a string or [None]. *)
Record choice : Type := { content : option string }.

Record completion : Type := { choices : list choice }.

Inductive api_result : Type :=
| Completed (response : completion)
| Failed (f : api_failure).

(** What one request carries. *)
Record api_request : Type := {
  base_url : string;
  key : string;
  http_referer : pyval;
  x_title : pyval;
  model : string;
  user_message : string;
  temperature : pyval;
  max_tokens : pyval
}.

(** [class OpenRouterClient] : the fields [chat] uses. *)
Record OpenRouterClient : Type := {
  api_key : string;
  free_models : list string
}.

Definition DEFAULT_FREE_MODELS : list string :=
  ["meta-llama/llama-3.3-70b-instruct:free";
   "mistralai/mistral-7b-instruct:free";
   "google/gemma-2-9b-it:free"].

(** [OpenRouterClient.__init__(api_key)], with the value of the environment
    variable [OPENROUTER_API_KEY]. *)
Definition __init__ (api_key env : option string) : outcome OpenRouterClient :=
  let chosen := if Http.falsy api_key then env else api_key in
  match chosen with
  | Some (String c k) =>
      Returned {| api_key := String c k; free_models := DEFAULT_FREE_MODELS |}
  | _ =>
      Raised (PyException "ValueError"
        "OpenRouter API key not provided and OPENROUTER_API_KEY environment variable not set")
  end.

(** [kwargs.get(k, default)] *)
Definition kwargs_get (kwargs : dict) (k : string) (default : pyval) : pyval :=
  match get kwargs k with
  | Some v => v
  | None => default
  end.

(** The float [0.7]. *)
Definition FLOAT_0_7 : QArith_base.Q :=
  QArith_base.Qmake 3152519739159347 4503599627370496.

Definition request_for (self : OpenRouterClient) (kwargs : dict)
    (message model_name : string) : api_request :=
  {| base_url := "https://openrouter.ai/api/v1";
     key := api_key self;
     http_referer :=
       kwargs_get kwargs "app_url"
         (PStr "https://github.com/yourusername/avatar-crew");
     x_title := kwargs_get kwargs "app_name" (PStr "Avatar-Crew");
     model := model_name;
     user_message := message;
     temperature := kwargs_get kwargs "temperature" (PFloat FLOAT_0_7);
     max_tokens := kwargs_get kwargs "max_tokens" (PInt 300) |}.

(** The four [except] clauses: what [last_error] becomes. *)
Definition describe (model_name : string) (f : api_failure) : string :=
  match f with
  | RateLimitError msg => "Rate limit exceeded for " ++ model_name ++ ": " ++ msg
  | APIConnectionError msg =>
      "API connection error with " ++ model_name ++ ": " ++ msg
  | APIError msg => "API error with " ++ model_name ++ ": " ++ msg
  | OtherException msg => "Unexpected error with " ++ model_name ++ ": " ++ msg
  end.

(** The completion object, as a value of a result dictionary. *)
Definition response_value (r : completion) : pyval :=
  PDict [("choices",
          PList (map (fun c =>
                        PDict [("message",
                                PDict [("content",
                                        match content c with
                                        | Some t => PStr t
                                        | None => PNone
                                        end)])])
                     (choices r)))].

(** [models = [model] if model else self.free_models], then
    [if fallbacks: models.extend(fallbacks)]. *)
Definition models_for (self : OpenRouterClient) (model : option string)
    (fallbacks : option (list string)) : list string :=
  let models :=
    match model with
    | Some (String c m) => [String c m]
    | _ => free_models self
    end in
  match fallbacks with
  | Some (f :: fs) => (models ++ f :: fs)%list
  | _ => models
  end.

Section Chat.

Context {W : Type}.
Variable create : api_request -> W -> W * api_result.

(** The [for] loop of [chat]: a success dictionary as soon as a request
    completes with a first choice, else [last_error] after the last
    model. *)
Fixpoint try_models (self : OpenRouterClient) (kwargs : dict)
    (message : string) (models : list string) (last_error : option string)
    (w : W) (sent : list api_request)
  : (W * list api_request) * (dict + option string) :=
  match models with
  | [] => ((w, sent), inr last_error)
  | model_name :: rest =>
      let rq := request_for self kwargs message model_name in
      match create rq w with
      | (w', Completed response) =>
          match choices response with
          | first :: _ =>
              ((w', (sent ++ [rq])%list),
               inl [("success", PBool true);
                    ("content", match content first with
                                | Some t => PStr t
                                | None => PNone
                                end);
                    ("model_used", PStr model_name);
                    ("full_response", response_value response)])
          | [] =>
              try_models self kwargs message rest
                (Some (describe model_name
                         (OtherException "list index out of range")))
                w' (sent ++ [rq])%list
          end
      | (w', Failed f) =>
          try_models self kwargs message rest
            (Some (describe model_name f)) w' (sent ++ [rq])%list
      end
  end.

(** [def chat(self, message, model=None, fallbacks=None, **kwargs)].  When
    no model is given, [models] is the list object [self.free_models]
    itself, so extending it extends the client's list. *)
Definition chat (self : OpenRouterClient) (message : string)
    (model : option string) (fallbacks : option (list string))
    (kwargs : dict) (w : W) (sent : list api_request)
  : (OpenRouterClient * (W * list api_request)) * dict :=
  let models := models_for self model fallbacks in
  let self' :=
    if Http.falsy model
    then {| api_key := api_key self; free_models := models |}
    else self in
  match try_models self' kwargs message models None w sent with
  | (ws, inl result) => ((self', ws), result)
  | (ws, inr last_error) =>
      ((self', ws),
       [("success", PBool false);
        ("error", PStr match last_error with
                       | Some (String c e) => String c e
                       | _ => "All models failed"
                       end);
        ("models_tried", PList (map PStr models))])
  end.

(** [class ChatRequest(BaseModel)] and [class ChatResponse(BaseModel)] *)
Record ChatRequest : Type := {
  message : string;
  requested_model : string;
  fallback_models : list string;
  requested_temperature : QArith_base.Q;
  requested_max_tokens : Z
}.

Record ChatResponse : Type := {
  success : bool;
  response_content : string;
  model_used : string;
  error : string
}.

(** [response.get(k, default)] read into a [str] field of [ChatResponse];
    [None] when the value is not a string, which the validation of
    [ChatResponse] refuses. *)
Definition str_field (response : dict) (k default : string) : option string :=
  match get response k with
  | Some (PStr t) => Some t
  | Some _ => None
  | None => Some default
  end.

(** [async def chat_endpoint(request, client)].  [validation_error] is the
    text of the exception [ChatResponse] raises on a field that is not a
    string. *)
Definition chat_endpoint (validation_error : string) (request : ChatRequest)
    (client : OpenRouterClient) (w : W) (sent : list api_request)
  : (OpenRouterClient * (W * list api_request)) * ChatResponse :=
  let kwargs :=
    [("fallback_models", PList (map PStr (fallback_models request)));
     ("temperature", PFloat (requested_temperature request));
     ("max_tokens", PInt (requested_max_tokens request));
     ("app_name", PStr "Avatar-Crew");
     ("app_url", PStr "https://github.com/yourusername/avatar-crew")] in
  let unexpected :=
    {| success := false; response_content := "";
       model_used := "none";
       error := "Unexpected error: " ++ validation_error |} in
  match chat client (message request) (Some (requested_model request)) None
          kwargs w sent with
  | (cws, response) =>
      (cws,
       match get response "success" with
       | Some (PBool true) =>
           match str_field response "content" "", str_field response "model_used" "" with
           | Some c, Some m =>
               {| success := true; response_content := c;
                  model_used := m; error := "" |}
           | _, _ => unexpected
           end
       | _ =>
           match str_field response "error" "Unknown error from OpenRouter",
                 str_field response "model_used" "none" with
           | Some e, Some m =>
               {| success := false; response_content := "";
                  model_used := m; error := e |}
           | _, _ => unexpected
           end
       end)
  end.

End Chat.

(** A scripted service for concrete runs: it completes the requests for
    the models of [good] with the model's name as content, and fails the
    others with a rate limit. *)
Definition scripted (good : list string)
  : api_request -> unit -> unit * api_result :=
  fun rq w =>
    if existsb (String.eqb (model rq)) good
    then (w, Completed {| choices := [{| content := Some (model rq) |}] |})
    else (w, Failed (RateLimitError "429")).

End OpenRouter.

(** ** The configuration of a language model: [LLMConfig] of [llm_utils.py] *)

Module LLM.

(** [class LLMProvider(Enum)] *)
Inductive LLMProvider : Type := OPENAI | KIMI | MOCK.

(** [LLMProvider(value)] : the member with that value, if there is one. *)
Definition by_value (value : string) : option LLMProvider :=
  if String.eqb value "openai" then Some OPENAI
  else if String.eqb value "kimi" then Some KIMI
  else if String.eqb value "mock" then Some MOCK
  else None.

(** [d[k] = v] : the value is replaced where the key is, else added. *)
Fixpoint setitem (d : dict) (k : string) (v : pyval) : dict :=
  match d with
  | [] => [(k, v)]
  | (k', v') :: d' =>
      if String.eqb k k' then (k', v) :: d' else (k', v') :: setitem d' k v
  end.

(** [d.setdefault(k, v)] *)
Definition setdefault (d : dict) (k : string) (v : pyval) : dict :=
  if has_key d k then d else setitem d k v.

(** [os.getenv(name)] as a value: [None] when the variable is not set. *)
Definition env_value (v : option string) : pyval :=
  match v with
  | Some t => PStr t
  | None => PNone
  end.

Record LLMConfig : Type := {
  provider : LLMProvider;
  config : dict
}.

Section Config.

Variable lower : string -> string.
Variable getenv : string -> option string.

(** [LLMConfig.__init__(self, provider, kwargs)] : [provider] is a member
    of the enumeration or a string. *)
Definition __init__ (provider : LLMProvider + string) (kwargs : dict)
  : LLMConfig :=
  let provider :=
    match provider with
    | inl member => member
    | inr name =>
        match by_value (lower name) with
        | Some member => member
        | None => MOCK
        end
    end in
  let with_key (config : dict) (variable : string) : dict :=
    if has_key config "api_key" then config
    else setitem config "api_key" (env_value (getenv variable)) in
  {| provider := provider;
     config :=
       match provider with
       | OPENAI =>
           with_key
             (setdefault
                (setdefault kwargs "model_name" (PStr "gpt-3.5-turbo"))
                "temperature" (PFloat OpenRouter.FLOAT_0_7))
             "OPENAI_API_KEY"
       | KIMI =>
           with_key
             (setdefault (setdefault kwargs "model_name" (PStr "k2"))
                "temperature" (PFloat OpenRouter.FLOAT_0_7))
             "KIMI_API_KEY"
       | MOCK =>
           setitem (setdefault kwargs "model_name" (PStr "mock-llm"))
             "temperature" (PFloat OpenRouter.FLOAT_0_7)
       end |}.

End Config.

End LLM.

(** ** Speech and lip-sync: [voice_utils.py]

    [requests.post] is the external collaborator: a POST either returns a
    response or raises.  The two API keys are read from the environment
    when the module is loaded. *)

Module Voice.

(** What [tts] and [lip_sync] read of a [requests] response. *)
Record response : Type := {
  status_code : Z;
  text : string;
  content : list byte;
  json : outcome pyval
}.

(** A POST as it is sent. *)
Record posted : Type := {
  to : string;
  headers : dict;
  payload : dict
}.

(** [str(n)] of an [int]. *)
Definition str_int (n : Z) : string :=
  DecimalString.NilZero.string_of_int (Z.to_int n).

(** The floats [0.3] and [0.7]. *)
Definition FLOAT_0_3 : QArith_base.Q :=
  QArith_base.Qmake 5404319552844595 18014398509481984.

(** The name of the type of a JSON value, as [AttributeError] prints it. *)
Definition type_name (v : pyval) : string :=
  match v with
  | PNone => "NoneType"
  | PBool _ => "bool"
  | PInt _ => "int"
  | PFloat _ => "float"
  | PStr _ => "str"
  | PList _ => "list"
  | PDict _ => "dict"
  end.

Section Calls.

Context {W : Type}.
Variable post : posted -> W -> W * outcome response.
Variable ELEVENLABS_API_KEY : option string.
Variable DID_API_KEY : option string.

(** [def tts(text, voice_id="Rachel")] *)
Definition tts (text voice_id : string) (w : W) (sent : list posted)
  : (W * list posted) * outcome dict :=
  match ELEVENLABS_API_KEY with
  | Some (String c k) =>
      let rq :=
        {| to := "https://api.elevenlabs.io/v1/text-to-speech" ++ "/" ++ voice_id;
           headers := [("xi-api-key", PStr (String c k));
                       ("Content-Type", PStr "application/json")];
           payload := [("text", PStr text);
                       ("model_id", PStr "eleven_multilingual_v2");
                       ("voice_settings",
                        PDict [("stability", PFloat FLOAT_0_3);
                               ("similarity_boost", PFloat OpenRouter.FLOAT_0_7)])] |} in
      match post rq w with
      | (w', Raised e) => ((w', (sent ++ [rq])%list), Raised e)
      | (w', Returned r) =>
          ((w', (sent ++ [rq])%list),
           Returned
             (if negb (status_code r =? 200)
              then [("error", PStr ("TTS failed (" ++ str_int (status_code r) ++ ")"));
                    ("details", PStr (Voice.text r))]
              else [("audio_base64", PStr (b64encode (content r)))]))
      end
  | _ => ((w, sent), Returned [("error", PStr "ELEVENLABS_API_KEY not set")])
  end.

(** [def lip_sync(audio_b64, image_url)] *)
Definition lip_sync (audio_b64 image_url : string) (w : W) (sent : list posted)
  : (W * list posted) * outcome dict :=
  match DID_API_KEY with
  | Some (String c k) =>
      let rq :=
        {| to := "https://api.d-id.com/talks";
           headers := [("Authorization", PStr ("Basic " ++ String c k));
                       ("Content-Type", PStr "application/json")];
           payload := [("script", PDict [("type", PStr "audio");
                                         ("audio", PStr audio_b64)]);
                       ("source_url", PStr image_url);
                       ("driver_url", PStr "bank://lively")] |} in
      match post rq w with
      | (w', Raised e) => ((w', (sent ++ [rq])%list), Raised e)
      | (w', Returned r) =>
          ((w', (sent ++ [rq])%list),
           if negb (status_code r =? 201)
           then Returned
                  [("error", PStr ("Lip-sync failed (" ++ str_int (status_code r) ++ ")"));
                   ("details", PStr (text r))]
           else
             match json r with
             | Raised e => Raised e
             | Returned (PDict resp) =>
                 Returned [("video_url",
                            match get resp "result_url" with
                            | Some v => v
                            | None => PStr ""
                            end)]
             | Returned v =>
                 Raised (PyException "AttributeError"
                           ("'" ++ type_name v ++ "' object has no attribute 'get'"))
             end)
      end
  | _ => ((w, sent), Returned [("error", PStr "D_ID_API_KEY not set")])
  end.

End Calls.

(** A service that answers every POST with the given status. *)
Definition answering (status : Z) : posted -> unit -> unit * outcome response :=
  fun _ w =>
    (w, Returned {| status_code := status; text := "body";
                    content := [x4d; x61; x6e]%byte;
                    json := Returned (PDict [("result_url", PStr "https://d-id/video.mp4")]) |}).

End Voice.

(** ** Vocabulary of the chat properties *)

Section Refusals.

Context {W : Type}.
Variable create : OpenRouter.api_request -> W -> W * OpenRouter.api_result.

(** The exception the body of the loop of [chat] raises on an answer: the
    one the request raised, or the [IndexError] of [response.choices[0]] on
    a completion without choices; none when a first choice is there. *)
Definition refusal (r : OpenRouter.api_result) : option OpenRouter.api_failure :=
  match r with
  | OpenRouter.Failed f => Some f
  | OpenRouter.Completed response =>
      match OpenRouter.choices response with
      | [] => Some (OpenRouter.OtherException "list index out of range")
      | _ :: _ => None
      end
  end.

(** [refused rq models w w'] : asked one after the other from the world
    [w], with the request [rq m] for the model [m], the service refused
    every model of [models], and left the world [w']. *)
Inductive refused (rq : string -> OpenRouter.api_request)
  : list string -> W -> W -> Prop :=
| refused_none w : refused rq [] w w
| refused_next m rest w w' f :
    refusal (snd (create (rq m) w)) = Some f ->
    refused rq rest (fst (create (rq m) w)) w' ->
    refused rq (m :: rest) w w'.

End Refusals.

(** * Properties *)

(** ** The Python helpers, on concrete inputs *)

Example truediv2_default :
  truediv2 DEFAULT_TIMEOUT = Returned (QArith_base.Qmake 30000 2).
Proof. reflexivity. Qed.

Example truediv2_odd_exact :
  truediv2 (2 ^ 53 - 1) = Returned (QArith_base.Qmake (2 ^ 53 - 1) 2).
Proof. reflexivity. Qed.

Example truediv2_ties_even :
  truediv2 (2 ^ 53 + 1) = Returned (QArith_base.Qmake (2 ^ 53) 2).
Proof. reflexivity. Qed.

Example truediv2_rounds_up :
  truediv2 (2 ^ 53 + 3) = Returned (QArith_base.Qmake (2 ^ 53 + 4) 2).
Proof. reflexivity. Qed.

Example truediv2_largest :
  exists q, truediv2 (2 ^ 1025 - 2 ^ 972) = Returned q.
Proof. eexists; vm_compute; reflexivity. Qed.

Example truediv2_overflow :
  exists e, truediv2 (2 ^ 1025 - 2 ^ 971) = Raised e.
Proof. eexists; vm_compute; reflexivity. Qed.

Example b64encode_Man : b64encode [x4d; x61; x6e]%byte = "TWFu".
Proof. reflexivity. Qed.

Example b64encode_Ma : b64encode [x4d; x61]%byte = "TWE=".
Proof. reflexivity. Qed.

Example b64encode_M : b64encode [x4d]%byte = "TQ==".
Proof. reflexivity. Qed.

Example started_agent :
  self (Stub.started Stub.blank) =
  {| browser := Some (Browser 1); context := Some (BrowserContext 2);
     page := Some (Page 3); playwright := Some (Playwright 0) |}.
Proof. reflexivity. Qed.

Example scenario_start_navigate_screenshot_close :
  let eng := Stub.engine Stub.healthy in
  let s0 := fresh Stub.blank in
  let '(s1, r1) := start eng s0 in
  let '(s2, r2) := navigate eng "https://example.com" DEFAULT_TIMEOUT s1 in
  let '(s3, r3) := take_screenshot eng s2 in
  let '(s4, r4) := close eng s3 in
  r1 = Returned [("status", PStr "Browser started")] /\
  r2 = Returned [("url", PStr "https://example.com");
                 ("title", PStr "Title of https://example.com");
                 ("status", PInt 200);
                 ("message", PStr "Successfully navigated to https://example.com")] /\
  r3 = Returned [("screenshot", PStr "iVBORw=="); ("type", PStr "image/png")] /\
  r4 = Returned [("status", PStr "Browser closed")] /\
  self s4 = __init__.
Proof. vm_compute. repeat split. Qed.

Example spec_has_scheme_examples :
  spec_has_scheme "https://example.com" = true /\
  spec_has_scheme "http://example.com" = true /\
  spec_has_scheme "ftp://example.com" = true /\
  spec_has_scheme "example.com" = false /\
  spec_has_scheme "example.com/a://b" = false /\
  spec_has_scheme "://example.com" = false.
Proof. repeat split. Qed.

(** ** How the combinators of method bodies behave *)

Section Combinators.

Context {W : Type}.
Local Open Scope py_scope.

Lemma never_raises_ret {A} (a : A) : never_raises (W := W) (ret a).
Proof. intros s. exists s, a. reflexivity. Qed.

Lemma never_raises_read {A} (f : BrowserAgent -> A) :
  never_raises (W := W) (read f).
Proof. intros s. exists s, (f (self s)). reflexivity. Qed.

Lemma never_raises_assign f : never_raises (W := W) (assign f).
Proof. intros s. eexists _, tt. reflexivity. Qed.

Lemma never_raises_bind {A B} (m : M W A) (f : A -> M W B) :
  never_raises m -> (forall a, never_raises (f a)) -> never_raises (bind m f).
Proof.
  intros Hm Hf s. destruct (Hm s) as (s1 & a & E).
  destruct (Hf a s1) as (s2 & b & E2).
  exists s2, b. unfold bind. rewrite E. exact E2.
Qed.

Lemma never_raises_try_except {A} (body : M W A) (handler : exn -> M W A) :
  (forall e, never_raises (handler e)) -> never_raises (try_except body handler).
Proof.
  intros Hh s. unfold try_except.
  destruct (body s) as [s1 [a | e]].
  - exists s1, a. reflexivity.
  - apply Hh.
Qed.

Lemma keeps_self_ret {A} (a : A) : keeps_self (W := W) (ret a).
Proof. intros s. reflexivity. Qed.

Lemma keeps_self_raise {A} e : keeps_self (W := W) (A := A) (raise e).
Proof. intros s. reflexivity. Qed.

Lemma keeps_self_read {A} (f : BrowserAgent -> A) : keeps_self (W := W) (read f).
Proof. intros s. reflexivity. Qed.

Lemma keeps_self_deref {H} (f : BrowserAgent -> option H) attr :
  keeps_self (W := W) (deref f attr).
Proof. intros s. unfold deref. destruct (f (self s)); reflexivity. Qed.

Lemma keeps_self_call {A} ev (op : W -> W * outcome A) :
  keeps_self (call ev op).
Proof. intros s. unfold call. destruct (op (world s)). reflexivity. Qed.

Lemma keeps_self_lift {A} (r : outcome A) :
  keeps_self (W := W) (fun s => (s, r)).
Proof. intros s. reflexivity. Qed.

Lemma keeps_self_bind {A B} (m : M W A) (f : A -> M W B) :
  keeps_self m -> (forall a, keeps_self (f a)) -> keeps_self (bind m f).
Proof.
  intros Hm Hf s. unfold bind. specialize (Hm s).
  destruct (m s) as [s1 [a | e]]; simpl in *.
  - rewrite Hf. exact Hm.
  - exact Hm.
Qed.

Lemma keeps_self_try_except {A} (body : M W A) (handler : exn -> M W A) :
  keeps_self body -> (forall e, keeps_self (handler e)) ->
  keeps_self (try_except body handler).
Proof.
  intros Hb Hh s. unfold try_except. specialize (Hb s).
  destruct (body s) as [s1 [a | e]]; simpl in *.
  - exact Hb.
  - rewrite Hh. exact Hb.
Qed.

Lemma keeps_self_try_except_timeout {A} (body : M W A) (handler : exn -> M W A) :
  keeps_self body -> (forall e, keeps_self (handler e)) ->
  keeps_self (try_except_timeout body handler).
Proof.
  intros Hb Hh. apply keeps_self_try_except; [exact Hb |].
  intros e. destruct (is_timeout e); [apply Hh | apply keeps_self_raise].
Qed.

End Combinators.

Create HintDb py discriminated.
#[export] Hint Resolve never_raises_ret never_raises_read never_raises_assign
  keeps_self_ret keeps_self_raise keeps_self_read keeps_self_deref
  keeps_self_call keeps_self_lift : py.

(** Walks a method body along its binds, handlers and branches. *)
Ltac walk :=
  repeat first
    [ solve [auto with py]
    | apply never_raises_bind; [| intros ?]
    | apply never_raises_try_except; intros ?
    | apply keeps_self_bind; [| intros ?]
    | apply keeps_self_try_except_timeout; [| intros ?]
    | apply keeps_self_try_except; [| intros ?]
    | match goal with
      | |- never_raises (match ?x with _ => _ end) => destruct x
      | |- keeps_self (match ?x with _ => _ end) => destruct x
      end ].

(** ** The methods, one by one *)

Section Methods.

Context {W : Type} (eng : Engine.t W).

Lemma keeps_self_page_url : keeps_self (self_page_url eng).
Proof. intros s. unfold self_page_url. destruct (page (self s)); reflexivity. Qed.

Lemma keeps_self_page_title : keeps_self (self_page_title eng).
Proof. unfold self_page_title. walk. Qed.

Hint Resolve keeps_self_page_url keeps_self_page_title : py.

Lemma navigate_recover_never_raises url e :
  never_raises (navigate_recover eng url e).
Proof. unfold navigate_recover. walk. Qed.

Lemma start_never_raises : never_raises (start eng).
Proof. unfold start. walk. Qed.

Lemma navigate_never_raises url timeout : never_raises (navigate eng url timeout).
Proof. unfold navigate. walk. Qed.

Lemma click_never_raises selector : never_raises (click eng selector).
Proof. unfold click. walk. Qed.

Lemma type_text_never_raises selector text :
  never_raises (type_text eng selector text).
Proof. unfold type_text. walk. Qed.

Lemma get_content_never_raises : never_raises (get_content eng).
Proof.
  unfold get_content.
  apply never_raises_bind; [auto with py |].
  intros [p |]; [| auto with py].
  apply never_raises_try_except. intros e s.
  unfold bind, read, self_page_url, ret.
  destruct (page (self s)) eqn:E; cbn; rewrite ?E; eexists _, _; reflexivity.
Qed.

Lemma take_screenshot_never_raises : never_raises (take_screenshot eng).
Proof. unfold take_screenshot. walk. Qed.

Lemma get_cookies_never_raises : never_raises (get_cookies eng).
Proof. unfold get_cookies. walk. Qed.

Lemma add_cookies_never_raises cookies : never_raises (add_cookies eng cookies).
Proof. unfold add_cookies. walk. Qed.

Lemma delete_cookies_never_raises cookies :
  never_raises (delete_cookies eng cookies).
Proof. unfold delete_cookies. walk. Qed.

(** Every method but [close] hands the caller a result, whatever the engine
    does. *)
Lemma perform_never_raises a : never_raises (perform eng a).
Proof.
  destruct a; simpl;
    auto using navigate_never_raises, click_never_raises,
      type_text_never_raises, get_content_never_raises,
      take_screenshot_never_raises, get_cookies_never_raises,
      add_cookies_never_raises, delete_cookies_never_raises.
Qed.

Lemma perform_keeps_self a : keeps_self (perform eng a).
Proof.
  destruct a; simpl;
    unfold navigate, navigate_primary, navigate_recover, click, type_text,
      get_content, take_screenshot, get_cookies, add_cookies, delete_cookies;
    walk.
Qed.

End Methods.

(** ** Before [start], after [close] *)

Section NotInitialized.

Context {W : Type} (eng : Engine.t W).

(** C5.  On a session whose page is unset, each of the eight actions
    returns at once the structured "not initialized" error (for
    [get_content] worded "No active page"): it does not raise, the state it
    leaves is the state it found, so no driver call was made. *)
Theorem C5_action_without_page_is_not_initialized (a : action) (s : state W) :
  page (self s) = None ->
  perform eng a s =
    (s, Returned match a with
                 | GetContent => NO_ACTIVE_PAGE
                 | _ => NOT_INITIALIZED
                 end)
  /\ makes_no_call (perform eng a) s
  /\ is_error match a with
              | GetContent => NO_ACTIVE_PAGE
              | _ => NOT_INITIALIZED
              end = true.
Proof.
  intros Hpage.
  assert (E : perform eng a s =
    (s, Returned match a with
                 | GetContent => NO_ACTIVE_PAGE
                 | _ => NOT_INITIALIZED
                 end)).
  { destruct a; simpl;
      unfold navigate, click, type_text, get_content, take_screenshot,
        get_cookies, add_cookies, delete_cookies, bind, read;
      rewrite Hpage; reflexivity. }
  split; [exact E |]. unfold makes_no_call. rewrite E. simpl.
  split; [split; reflexivity |].
  destruct a; reflexivity.
Qed.

(** C9.  On a READY session an action, whether it reports success or an
    error, returns a result and leaves the fields of the session as they
    were: the session is READY for the next call. *)
Theorem C9_action_leaves_session_ready (a : action) (s : state W) :
  ready (self s) = true ->
  self (fst (perform eng a s)) = self s
  /\ ready (self (fst (perform eng a s))) = true
  /\ exists d, snd (perform eng a s) = Returned d.
Proof.
  intros Hready.
  pose proof (perform_keeps_self eng a s) as Hself.
  split; [exact Hself |]. split; [rewrite Hself; exact Hready |].
  destruct (perform_never_raises eng a s) as (s' & d & E).
  exists d. rewrite E. reflexivity.
Qed.

End NotInitialized.

Lemma C5_witness_navigate_on_fresh_agent :
  perform (Stub.engine Stub.healthy) (Navigate "example.com" DEFAULT_TIMEOUT)
    (fresh Stub.blank) =
    (fresh Stub.blank, Returned NOT_INITIALIZED)
  /\ makes_no_call
       (perform (Stub.engine Stub.healthy) (Navigate "example.com" DEFAULT_TIMEOUT))
       (fresh Stub.blank)
  /\ is_error NOT_INITIALIZED = true.
Proof.
  exact (C5_action_without_page_is_not_initialized (Stub.engine Stub.healthy)
           (Navigate "example.com" DEFAULT_TIMEOUT) (fresh Stub.blank) eq_refl).
Defined.

Lemma C9_witness_failed_click_on_started_agent :
  self (fst (perform (Stub.engine (Stub.failing Stub.OClick Stub.timed_out Stub.healthy))
               (Click "#submit") (Stub.started Stub.example_com)))
  = self (Stub.started Stub.example_com)
  /\ ready (self (fst (perform
               (Stub.engine (Stub.failing Stub.OClick Stub.timed_out Stub.healthy))
               (Click "#submit") (Stub.started Stub.example_com)))) = true
  /\ exists d,
       snd (perform (Stub.engine (Stub.failing Stub.OClick Stub.timed_out Stub.healthy))
              (Click "#submit") (Stub.started Stub.example_com)) = Returned d.
Proof.
  exact (C9_action_leaves_session_ready
           (Stub.engine (Stub.failing Stub.OClick Stub.timed_out Stub.healthy))
           (Click "#submit") (Stub.started Stub.example_com) eq_refl).
Defined.

Example failed_click_result :
  snd (click (Stub.engine (Stub.failing Stub.OClick Stub.timed_out Stub.healthy))
         "#submit" (Stub.started Stub.example_com))
  = Returned [("error", PStr "Click timed out: #submit")].
Proof. reflexivity. Qed.

(** ** [close] *)

Section Close.

Context {W : Type} (eng : Engine.t W).

(** Whenever [close] returns, it reports success and every field is unset;
    whenever it raises, the fields are as they were. *)
Lemma close_outcome (s : state W) :
  match close eng s with
  | (s', Returned d) => d = CLOSED /\ self s' = __init__
  | (s', Raised e) => self s' = self s
  end.
Proof.
  destruct s as [[b c p pw] w tr].
  unfold close, bind, read, deref, call, assign, ret; cbn.
  destruct b as [b |], pw as [pw |]; cbn;
    repeat match goal with
           | |- context [browser_close eng ?b ?w] =>
               destruct (browser_close eng b w) as [? [[] | ?]]; cbn
           | |- context [playwright_stop eng ?pw ?w] =>
               destruct (playwright_stop eng pw w) as [? [[] | ?]]; cbn
           end;
    auto.
Qed.

(** On an unset session [close] makes no driver call and reports success. *)
Lemma close_when_unset (s : state W) :
  self s = __init__ -> close eng s = (s, Returned CLOSED).
Proof.
  destruct s as [a w tr]. simpl. intros ->. reflexivity.
Qed.

(** If both teardown calls return, [close] twice in a row reports success
    twice and leaves every field unset. *)
Lemma close_twice_when_teardown_returns (s : state W) b pw w1 w2 :
  browser (self s) = Some b ->
  playwright (self s) = Some pw ->
  browser_close eng b (world s) = (w1, Returned tt) ->
  playwright_stop eng pw w1 = (w2, Returned tt) ->
  exists s1,
    close eng s = (s1, Returned CLOSED) /\
    close eng s1 = (s1, Returned CLOSED) /\
    self s1 = __init__.
Proof.
  destruct s as [[b0 c p pw0] w tr]. simpl. intros -> -> Hb Hpw.
  eexists. split; [| split].
  - unfold close, bind, read, deref, call, assign, ret; cbn.
    rewrite Hb; cbn. rewrite Hpw; cbn. reflexivity.
  - reflexivity.
  - reflexivity.
Qed.

(** The one method without a [try]: a failure of [browser.close()] reaches
    the caller and the fields stay set. *)
Lemma close_raises_what_browser_close_raises (s : state W) b w1 e :
  browser (self s) = Some b ->
  browser_close eng b (world s) = (w1, Raised e) ->
  close eng s =
    ({| self := self s; world := w1; trace := trace s ++ [EvBrowserClose b] |},
     Raised e).
Proof.
  destruct s as [[b0 c p pw0] w tr]. simpl. intros -> Hb.
  unfold close, bind, read, deref, call; cbn. rewrite Hb. reflexivity.
Qed.

End Close.

(** C3.  The claim that no public method lets an exception reach the caller
    fails for [close]: on a started session whose engine raises from
    [browser.close()], [close] raises that exception, after the one driver
    call, with every field still set.  ([start] and the eight actions do
    return a result whatever the engine does: [start_never_raises],
    [perform_never_raises].) *)
Theorem C3_close_lets_engine_failure_escape :
  close (Stub.engine (Stub.failing Stub.OBrowserClose Stub.target_closed Stub.healthy))
    (Stub.started Stub.example_com)
  = ({| self := {| browser := Some (Browser 1);
                   context := Some (BrowserContext 2);
                   page := Some (Page 3);
                   playwright := Some (Playwright 0) |};
        world := Stub.example_com;
        trace := [EvAsyncPlaywrightStart;
                  EvChromiumLaunch (Playwright 0) false;
                  EvNewContext (Browser 1);
                  EvNewPage (BrowserContext 2);
                  EvBrowserClose (Browser 1)] |},
     Raised Stub.target_closed).
Proof. reflexivity. Qed.

(** C6.  [close] is idempotent.  On every session, started, partly started
    or never started: when the teardown calls it makes return, [close]
    called twice in a row returns the closed status both times, the second
    call makes no driver call, and every field is unset afterwards. *)
Theorem C6_close_twice_succeeds_and_unsets
    {W : Type} (eng : Engine.t W) (s : state W) :
  (forall b, browser (self s) = Some b ->
     snd (browser_close eng b (world s)) = Returned tt) ->
  (forall pw, playwright (self s) = Some pw ->
     snd (playwright_stop eng pw
            match browser (self s) with
            | Some b => fst (browser_close eng b (world s))
            | None => world s
            end) = Returned tt) ->
  exists s1,
    close eng s = (s1, Returned CLOSED)
    /\ close eng s1 = (s1, Returned CLOSED)
    /\ self s1 = __init__.
Proof.
  destruct s as [[b c p pw] w tr]. simpl. intros Hb Hpw.
  assert (E : exists s1, close eng {| self := {| browser := b; context := c;
                                                 page := p; playwright := pw |};
                                      world := w; trace := tr |}
                         = (s1, Returned CLOSED) /\ self s1 = __init__).
  { unfold close, bind, read, deref, call, assign, ret; cbn.
    destruct b as [b |]; cbn.
    - specialize (Hb b eq_refl).
      destruct (browser_close eng b w) as [w1 r1]; cbn in *. subst r1. cbn.
      destruct pw as [pw |]; cbn.
      + specialize (Hpw pw eq_refl).
        destruct (playwright_stop eng pw w1) as [w2 r2]; cbn in *. subst r2.
        eexists. split; reflexivity.
      + eexists. split; reflexivity.
    - destruct pw as [pw |]; cbn.
      + specialize (Hpw pw eq_refl).
        destruct (playwright_stop eng pw w) as [w2 r2]; cbn in *. subst r2.
        eexists. split; reflexivity.
      + eexists. split; reflexivity. }
  destruct E as (s1 & E1 & Hs1). exists s1.
  split; [exact E1 |]. split; [| exact Hs1].
  apply close_when_unset, Hs1.
Qed.

Lemma C6_witness_close_twice_on_started_agent :
  exists s1,
    close (Stub.engine Stub.healthy) (Stub.started Stub.example_com)
    = (s1, Returned CLOSED)
    /\ close (Stub.engine Stub.healthy) s1 = (s1, Returned CLOSED)
    /\ self s1 = __init__.
Proof.
  exact (C6_close_twice_succeeds_and_unsets (Stub.engine Stub.healthy)
           (Stub.started Stub.example_com)
           (fun _ _ => eq_refl) (fun _ _ => eq_refl)).
Defined.

(** A session whose [browser] is set and whose [playwright] is not: the one
    teardown call is [browser.close()]. *)
Example close_twice_on_partly_started_agent :
  let eng := Stub.engine Stub.healthy in
  let s0 := {| self := {| browser := Some (Browser 1); context := None;
                          page := None; playwright := None |};
               world := Stub.blank; trace := [] |} in
  close eng s0
  = ({| self := __init__; world := Stub.blank;
        trace := [EvBrowserClose (Browser 1)] |}, Returned CLOSED)
  /\ close eng (fst (close eng s0)) = (fst (close eng s0), Returned CLOSED).
Proof. split; reflexivity. Qed.

(** When [playwright.stop()] raises, [close] raises and the fields stay
    set, on the first call and on the second. *)
Example close_twice_with_failing_teardown :
  let eng := Stub.engine (Stub.failing Stub.OStop Stub.target_closed Stub.healthy) in
  let s0 := Stub.started Stub.example_com in
  snd (close eng s0) = Raised Stub.target_closed
  /\ snd (close eng (fst (close eng s0))) = Raised Stub.target_closed
  /\ self (fst (close eng (fst (close eng s0)))) = self s0
  /\ ready (self (fst (close eng (fst (close eng s0))))) = true.
Proof. repeat split. Qed.

Example close_twice_on_fresh_agent :
  let eng := Stub.engine Stub.healthy in
  close eng (fresh Stub.blank) = (fresh Stub.blank, Returned CLOSED)
  /\ close eng (fst (close eng (fresh Stub.blank))) = (fresh Stub.blank, Returned CLOSED).
Proof. split; reflexivity. Qed.

Example close_twice_on_started_agent :
  let eng := Stub.engine Stub.healthy in
  let s0 := Stub.started Stub.example_com in
  snd (close eng s0) = Returned CLOSED
  /\ snd (close eng (fst (close eng s0))) = Returned CLOSED
  /\ self (fst (close eng (fst (close eng s0)))) = __init__
  /\ trace (fst (close eng (fst (close eng s0)))) = trace (fst (close eng s0)).
Proof. repeat split. Qed.

(** ** The fields of the session across calls *)

Section Invariant.

Context {W : Type} (eng : Engine.t W).







End Invariant.


(** ** The trace only grows *)

Section Trace.

Context {W : Type} (eng : Engine.t W).
Local Open Scope py_scope.

Lemma extends_trace_pure {A} (r : outcome A) :
  extends_trace (W := W) (fun s => (s, r)).
Proof. intros s. exists []. simpl. now rewrite app_nil_r. Qed.

Lemma extends_trace_read {A} (f : BrowserAgent -> A) :
  extends_trace (W := W) (read f).
Proof. intros s. exists []. simpl. now rewrite app_nil_r. Qed.

Lemma extends_trace_deref {H} (f : BrowserAgent -> option H) attr :
  extends_trace (W := W) (deref f attr).
Proof.
  intros s. exists []. unfold deref.
  destruct (f (self s)); simpl; now rewrite app_nil_r.
Qed.

Lemma extends_trace_call {A} ev (op : W -> W * outcome A) :
  extends_trace (call ev op).
Proof.
  intros s. exists [ev]. unfold call. destruct (op (world s)). reflexivity.
Qed.

Lemma extends_trace_bind {A B} (m : M W A) (f : A -> M W B) :
  extends_trace m -> (forall a, extends_trace (f a)) -> extends_trace (bind m f).
Proof.
  intros Hm Hf s. unfold bind. destruct (Hm s) as [c1 E1].
  destruct (m s) as [s1 [a | e]]; simpl in *.
  - destruct (Hf a s1) as [c2 E2]. exists (c1 ++ c2)%list.
    rewrite E2, E1. now rewrite app_assoc.
  - exists c1. exact E1.
Qed.

Lemma extends_trace_try_except {A} (body : M W A) (handler : exn -> M W A) :
  extends_trace body -> (forall e, extends_trace (handler e)) ->
  extends_trace (try_except body handler).
Proof.
  intros Hb Hh s. unfold try_except. destruct (Hb s) as [c1 E1].
  destruct (body s) as [s1 [a | e]]; simpl in *.
  - exists c1. exact E1.
  - destruct (Hh e s1) as [c2 E2]. exists (c1 ++ c2)%list.
    rewrite E2, E1. now rewrite app_assoc.
Qed.

Lemma extends_trace_page_url : extends_trace (self_page_url eng).
Proof.
  intros s. exists []. unfold self_page_url.
  destruct (page (self s)); simpl; now rewrite app_nil_r.
Qed.

(** Walks a method body, for [extends_trace]. *)
Ltac grow :=
  repeat first
    [ apply extends_trace_pure
    | apply extends_trace_read
    | apply extends_trace_deref
    | apply extends_trace_call
    | apply extends_trace_page_url
    | apply extends_trace_bind; [| intros ?]
    | apply extends_trace_try_except; [| intros ?]
    | match goal with
      | |- extends_trace (match ?x with _ => _ end) => destruct x
      end ].

Lemma extends_trace_navigate_recover url e :
  extends_trace (navigate_recover eng url e).
Proof. unfold navigate_recover, self_page_title, ret. grow. Qed.

Lemma bind_deref {H A} (f : BrowserAgent -> option H) attr (g : H -> M W A)
    (s : state W) h :
  f (self s) = Some h -> bind (deref f attr) g s = g h s.
Proof. intros E. unfold bind, deref. rewrite E. reflexivity. Qed.

(** A guarded body that starts with a driver call: the call comes first in
    what the run adds to the trace. *)
Lemma try_except_first_call {A B} ev (op : W -> W * outcome A)
    (f : A -> M W B) (handler : exn -> M W B) (s : state W) :
  (forall a, extends_trace (f a)) ->
  (forall e, extends_trace (handler e)) ->
  exists rest,
    trace (fst (try_except (bind (call ev op) f) handler s))
    = (trace s ++ ev :: rest)%list.
Proof.
  intros Hf Hh. unfold try_except, bind, call.
  destruct (op (world s)) as [w [a | e]].
  - match goal with |- context [f a ?s2] =>
      destruct (Hf a s2) as [c E]; destruct (f a s2) as [s3 [b | e]] end;
      simpl in *.
    + exists c. rewrite E. now rewrite <- app_assoc.
    + destruct (Hh e s3) as [c2 E2]. exists (c ++ c2)%list.
      rewrite E2, E. now rewrite <- !app_assoc.
  - match goal with |- context [handler e ?s2] =>
      destruct (Hh e s2) as [c E] end.
    exists c. rewrite E. simpl. now rewrite <- app_assoc.
Qed.

(** Once the page is there, the first call of the primary path is the
    [goto] of the URL it was given, waiting for DOM-content-loaded. *)
Lemma navigate_primary_requests url timeout (s : state W) p :
  page (self s) = Some p ->
  exists rest,
    trace (fst (navigate_primary eng url timeout s))
    = (trace s ++ EvGoto p url DomContentLoaded :: rest)%list.
Proof.
  intros Hp. unfold navigate_primary, try_except_timeout.
  unfold try_except at 1. rewrite (bind_deref _ _ _ _ _ Hp).
  apply try_except_first_call.
  - intros resp. unfold self_page_title, ret. grow.
  - intros e. cbv beta. destruct (is_timeout e);
      unfold self_page_title, ret, raise; grow.
Qed.

End Trace.

(** ** [navigate] : the URL it requests *)

Section Normalisation.

Context {W : Type} (eng : Engine.t W).

Lemma normalize_url_cases url :
  normalize_url url =
    if startswith url "http://" || startswith url "https://"
    then url else "https://" ++ url.
Proof.
  unfold normalize_url, startswith_any. simpl.
  rewrite orb_false_r.
  destruct (startswith url "http://" || startswith url "https://"); reflexivity.
Qed.

Lemma normalize_url_idempotent url :
  normalize_url (normalize_url url) = normalize_url url.
Proof.
  rewrite (normalize_url_cases url).
  destruct (startswith url "http://" || startswith url "https://") eqn:E;
    rewrite normalize_url_cases.
  - rewrite E. reflexivity.
  - replace (startswith ("https://" ++ url) "https://") with true.
    + rewrite orb_true_r. reflexivity.
    + unfold startswith. simpl.
      repeat match goal with
             | |- context [ascii_dec ?a ?a] =>
                 destruct (ascii_dec a a); [| congruence]
             end.
      destruct url; reflexivity.
Qed.

(** The URL reaches the driver only through [normalize_url]. *)
Lemma navigate_normalized url timeout (s : state W) :
  navigate eng url timeout s = navigate eng (normalize_url url) timeout s.
Proof. unfold navigate. rewrite normalize_url_idempotent. reflexivity. Qed.

Lemma navigate_requests url timeout (s : state W) p w1 :
  page (self s) = Some p ->
  page_set_default_navigation_timeout eng p timeout (world s) = (w1, Returned tt) ->
  exists rest,
    trace (fst (navigate eng url timeout s))
    = (trace s ++ EvSetDefaultNavigationTimeout p timeout
               :: EvGoto p (normalize_url url) DomContentLoaded :: rest)%list.
Proof.
  intros Hp Hset. unfold navigate.
  unfold bind at 1, read. rewrite Hp.
  unfold try_except. rewrite (bind_deref _ _ _ _ _ Hp).
  unfold bind at 1, call at 1. rewrite Hset.
  match goal with |- context [navigate_primary eng ?u timeout ?s1] =>
    destruct (navigate_primary_requests eng u timeout s1 p Hp) as [rest E];
    destruct (navigate_primary eng u timeout s1) as [s2 [d | e]];
    simpl in E |- * end.
  - exists rest. rewrite E. now rewrite <- app_assoc.
  - destruct (extends_trace_navigate_recover eng (normalize_url url) e s2)
      as [c E2].
    exists (rest ++ c)%list. rewrite E2, E. now rewrite <- !app_assoc.
Qed.

(** C7, as the code has it.  [navigate] prefixes [https://] exactly when
    the URL does not start with [http://] or [https://], and otherwise
    leaves it as it is; the normalised URL is the one handed to [goto];
    [navigate("example.com")] and [navigate("https://example.com")] are the
    same run. *)
Theorem C7_navigate_prefixes_https_unless_http_prefix url timeout (s : state W) :
  normalize_url url =
    (if startswith url "http://" || startswith url "https://"
     then url else "https://" ++ url)
  /\ navigate eng url timeout s = navigate eng (normalize_url url) timeout s
  /\ navigate eng "example.com" timeout s
     = navigate eng "https://example.com" timeout s
  /\ (forall p w1,
        page (self s) = Some p ->
        page_set_default_navigation_timeout eng p timeout (world s)
          = (w1, Returned tt) ->
        exists rest,
          trace (fst (navigate eng url timeout s))
          = (trace s ++ EvSetDefaultNavigationTimeout p timeout
                     :: EvGoto p (normalize_url url) DomContentLoaded
                     :: rest)%list).
Proof.
  split; [apply normalize_url_cases |].
  split; [apply navigate_normalized |].
  split; [apply (navigate_normalized "example.com") |].
  intros p w1. apply navigate_requests.
Qed.

End Normalisation.

(** C7, as the spec words it, fails: a URL with a scheme other than
    [http] or [https] is prefixed all the same, and the prefixed URL is the
    one requested. *)
Lemma C7_counterexample_ftp_url_is_prefixed :
  spec_has_scheme "ftp://example.com" = true
  /\ spec_normalize_url "ftp://example.com" = "ftp://example.com"
  /\ normalize_url "ftp://example.com" = "https://ftp://example.com"
  /\ trace (fst (navigate (Stub.engine Stub.healthy) "ftp://example.com"
                   DEFAULT_TIMEOUT (Stub.started Stub.blank)))
     = [EvAsyncPlaywrightStart;
        EvChromiumLaunch (Playwright 0) false;
        EvNewContext (Browser 1);
        EvNewPage (BrowserContext 2);
        EvSetDefaultNavigationTimeout (Page 3) 30000;
        EvGoto (Page 3) "https://ftp://example.com" DomContentLoaded;
        EvWaitForLoadState (Page 3) NetworkIdle (QArith_base.Qmake 30000 2);
        EvTitle (Page 3)].
Proof. repeat split. Qed.

Example normalize_url_examples :
  normalize_url "example.com" = "https://example.com"
  /\ normalize_url "https://example.com" = "https://example.com"
  /\ normalize_url "http://example.com" = "http://example.com"
  /\ normalize_url "HTTP://example.com" = "https://HTTP://example.com"
  /\ normalize_url "" = "https://".
Proof. repeat split. Qed.

(** ** [get_content] when the engine fails *)

Section GetContent.

Context {W : Type} (eng : Engine.t W).

(** C8, as the code has it.  On a session with a page, when [title()]
    raises, or [title()] returns and [evaluate()] raises, [get_content]
    returns a result with the error message, an empty title, an empty
    content, and the URL the page shows at that moment; the fields of the
    session are as they were. *)
Theorem C8_get_content_failure_reports_current_url (s : state W) p w' e :
  page (self s) = Some p ->
  (page_title eng p (world s) = (w', Raised e)
   \/ exists w1 title,
        page_title eng p (world s) = (w1, Returned title)
        /\ page_evaluate eng p CONTENT_SCRIPT w1 = (w', Raised e)) ->
  exists s',
    get_content eng s =
      (s', Returned [("error", PStr ("Failed to get page content: " ++ str e));
                     ("title", PStr "");
                     ("content", PStr "");
                     ("url", PStr (page_url eng p w'))])
    /\ self s' = self s
    /\ world s' = w'.
Proof.
  destruct s as [[b c pg pw] w tr]. simpl. intros -> H.
  unfold get_content, try_except, bind, read, self_page_title, self_page_url,
    deref, call, ret; cbn.
  destruct H as [Ht | (w1 & title & Ht & Hev)].
  - rewrite Ht; cbn. eexists. repeat split.
  - rewrite Ht; cbn. rewrite Hev; cbn. eexists. repeat split.
Qed.

End GetContent.

Lemma C8_witness_title_raises :
  exists s',
    get_content (Stub.engine (Stub.failing Stub.OTitle Stub.context_destroyed Stub.healthy))
      (Stub.started Stub.blank) =
      (s', Returned [("error", PStr ("Failed to get page content: " ++ str Stub.context_destroyed));
                     ("title", PStr "");
                     ("content", PStr "");
                     ("url", PStr "about:blank")])
    /\ self s' = self (Stub.started Stub.blank)
    /\ world s' = Stub.blank.
Proof.
  exact (C8_get_content_failure_reports_current_url
           (Stub.engine (Stub.failing Stub.OTitle Stub.context_destroyed Stub.healthy))
           (Stub.started Stub.blank) (Page 3) Stub.blank Stub.context_destroyed
           eq_refl (or_introl eq_refl)).
Defined.

(** C8, as the spec has it, fails: the URL of the failure result is the
    page's current URL, not the empty string. *)
Lemma C8_counterexample_url_is_not_empty :
  let eng := Stub.engine (Stub.failing Stub.OEvaluate Stub.context_destroyed Stub.healthy) in
  snd (get_content eng (Stub.started Stub.example_com))
  = Returned [("error", PStr "Failed to get page content: Execution context was destroyed, most likely because of a navigation");
              ("title", PStr "");
              ("content", PStr "");
              ("url", PStr "https://example.com/")]
  /\ (exists d, snd (get_content eng (Stub.started Stub.example_com)) = Returned d
                 /\ get d "url" = Some (PStr "https://example.com/")).
Proof. split; [reflexivity |]. eexists. split; reflexivity. Qed.

(** ** [navigate] : the three tiers *)

Section Navigate.

Context {W : Type} (eng : Engine.t W).
#[local] Arguments normalize_url : simpl never.
#[local] Arguments truediv2 : simpl never.

(** Unfolds a run of [navigate] down to the driver calls. *)
Ltac trace_navigate :=
  unfold navigate, navigate_primary, navigate_recover, try_except_timeout,
    try_except, bind, read, self_page_title, self_page_url, deref, call,
    ret, raise; cbn.

(** Follows the driver's answers given as hypotheses. *)
Ltac follow :=
  repeat match goal with
         | H : ?call = (_, _) |- context [?call] => rewrite H; cbn
         | H : is_timeout ?e = _ |- context [is_timeout ?e] => rewrite H; cbn
         | H : truediv2 ?t = _ |- context [truediv2 ?t] => rewrite H; cbn
         end.

Lemma skipn_own_length {A} (l l' : list A) :
  skipn (length l) (l ++ l') = l'.
Proof. induction l as [| x l IH]; simpl; [reflexivity | exact IH]. Qed.

(** Below [2 ^ 53] the budget of the idle wait is exactly [timeout / 2]. *)
Lemma truediv2_exact (timeout : Z) :
  Z.abs timeout < 2 ^ 53 ->
  truediv2 timeout = Returned (QArith_base.Qmake timeout 2).
Proof.
  intros Hsmall. unfold truediv2, round53.
  assert (Hlog : Z.log2 (Z.abs timeout) + 1 <= 53).
  { destruct (Z.eq_dec (Z.abs timeout) 0) as [E | E].
    - rewrite E. simpl. lia.
    - assert (Z.log2 (Z.abs timeout) < 53); [| lia].
      apply Z.log2_lt_pow2; lia. }
  apply Z.leb_le in Hlog. rewrite Hlog.
  assert (Hbig : 2 ^ 53 < 2 ^ 1025) by (apply Z.pow_lt_mono_r; lia).
  destruct (Z.leb_spec (2 ^ 1025) (Z.abs timeout)); [lia | reflexivity].
Qed.

(** The recovery handler, whatever brought control to it: one [reload] of
    the page, then its URL and title, or the error with its suggestion. *)
Lemma navigate_recover_outcome url e (s : state W) p :
  page (self s) = Some p ->
  match page_reload eng p DomContentLoaded (world s) with
  | (w3, Returned _) =>
      match page_title eng p w3 with
      | (w4, Returned title) =>
          navigate_recover eng url e s =
            ({| self := self s; world := w4;
                trace := trace s ++ [EvReload p DomContentLoaded; EvTitle p] |},
             Returned [("url", PStr (page_url eng p w3));
                       ("title", PStr title);
                       ("status", PInt 200);
                       ("warning", PStr ("Recovered from navigation error: " ++ str e));
                       ("message", PStr "Page recovered after navigation error")])
      | (w4, Raised _) =>
          navigate_recover eng url e s =
            ({| self := self s; world := w4;
                trace := trace s ++ [EvReload p DomContentLoaded; EvTitle p] |},
             Returned [("error", PStr ("Navigation to " ++ url ++ " failed: " ++ str e));
                       ("suggestion", PStr SUGGESTION)])
      end
  | (w3, Raised _) =>
      navigate_recover eng url e s =
        ({| self := self s; world := w3;
            trace := trace s ++ [EvReload p DomContentLoaded] |},
         Returned [("error", PStr ("Navigation to " ++ url ++ " failed: " ++ str e));
                   ("suggestion", PStr SUGGESTION)])
  end.
Proof.
  destruct s as [[b c pg pw] w tr]. simpl. intros ->.
  trace_navigate.
  destruct (page_reload eng p DomContentLoaded w) as [w3 [r | e3]]; cbn.
  - destruct (page_title eng p w3) as [w4 [title | e4]]; cbn;
      rewrite <- app_assoc; reflexivity.
  - reflexivity.
Qed.

(** C1, as the code has it.  When [goto] raises an exception that is not a
    timeout, [navigate] makes exactly one [reload] of the page, waiting for
    DOM-content-loaded.  If the reload returns and the title can then be
    read, the result is a success whose warning says the page was
    recovered.  If the reload raises, or the title cannot be read after it,
    the result is the error with its non-empty suggestion.  No exception
    reaches the caller in any case. *)
Theorem C1_goto_failure_is_met_by_one_reload url timeout (s : state W) p w1 w2 e :
  page (self s) = Some p ->
  page_set_default_navigation_timeout eng p timeout (world s) = (w1, Returned tt) ->
  page_goto eng p (normalize_url url) DomContentLoaded w1 = (w2, Raised e) ->
  is_timeout e = false ->
  SUGGESTION <> ""
  /\ length (filter is_reload (calls_made (navigate eng url timeout) s)) = 1%nat
  /\ match page_reload eng p DomContentLoaded w2 with
     | (w3, Returned _) =>
         match page_title eng p w3 with
         | (w4, Returned title) =>
             navigate eng url timeout s =
               ({| self := self s; world := w4;
                   trace := trace s ++
                     [EvSetDefaultNavigationTimeout p timeout;
                      EvGoto p (normalize_url url) DomContentLoaded;
                      EvReload p DomContentLoaded;
                      EvTitle p] |},
                Returned [("url", PStr (page_url eng p w3));
                          ("title", PStr title);
                          ("status", PInt 200);
                          ("warning", PStr ("Recovered from navigation error: " ++ str e));
                          ("message", PStr "Page recovered after navigation error")])
         | (w4, Raised _) =>
             navigate eng url timeout s =
               ({| self := self s; world := w4;
                   trace := trace s ++
                     [EvSetDefaultNavigationTimeout p timeout;
                      EvGoto p (normalize_url url) DomContentLoaded;
                      EvReload p DomContentLoaded;
                      EvTitle p] |},
                Returned [("error", PStr ("Navigation to " ++ normalize_url url
                                           ++ " failed: " ++ str e));
                          ("suggestion", PStr SUGGESTION)])
         end
     | (w3, Raised _) =>
         navigate eng url timeout s =
           ({| self := self s; world := w3;
               trace := trace s ++
                 [EvSetDefaultNavigationTimeout p timeout;
                  EvGoto p (normalize_url url) DomContentLoaded;
                  EvReload p DomContentLoaded] |},
            Returned [("error", PStr ("Navigation to " ++ normalize_url url
                                       ++ " failed: " ++ str e));
                      ("suggestion", PStr SUGGESTION)])
     end.
Proof.
  destruct s as [[b c pg pw] w tr]. simpl. intros -> Hset Hgoto He.
  split; [discriminate |].
  unfold calls_made. trace_navigate. follow.
  destruct (page_reload eng p DomContentLoaded w2) as [w3 [r | e3]]; cbn.
  - destruct (page_title eng p w3) as [w4 [title | e4]]; cbn;
      rewrite <- !app_assoc, skipn_own_length; split; reflexivity.
  - rewrite <- !app_assoc, skipn_own_length. split; reflexivity.
Qed.

(** C2, as the code has it.  When [goto] returns and the wait for network
    idle, budgeted at [timeout / 2], raises a timeout, [navigate] reads the
    URL and the title: if the title can be read, the result is the
    current URL and title with a warning and status 200; if the title read
    raises, control passes to the reload recovery with that exception. *)
Theorem C2_idle_timeout_is_a_soft_success url timeout (s : state W)
    p w1 w2 w3 response budget e :
  page (self s) = Some p ->
  page_set_default_navigation_timeout eng p timeout (world s) = (w1, Returned tt) ->
  page_goto eng p (normalize_url url) DomContentLoaded w1 = (w2, Returned response) ->
  truediv2 timeout = Returned budget ->
  page_wait_for_load_state eng p NetworkIdle budget w2 = (w3, Raised e) ->
  is_timeout e = true ->
  match page_title eng p w3 with
  | (w4, Returned title) =>
      navigate eng url timeout s =
        ({| self := self s; world := w4;
            trace := trace s ++
              [EvSetDefaultNavigationTimeout p timeout;
               EvGoto p (normalize_url url) DomContentLoaded;
               EvWaitForLoadState p NetworkIdle budget;
               EvTitle p] |},
         Returned [("url", PStr (page_url eng p w3));
                   ("title", PStr title);
                   ("status", PInt 200);
                   ("warning", PStr ("Navigation timed out but continuing with available content: " ++ str e));
                   ("message", PStr ("Navigation to " ++ normalize_url url
                                      ++ " timed out, but continuing with available content"))])
  | (w4, Raised e') =>
      navigate eng url timeout s =
        navigate_recover eng (normalize_url url) e'
          {| self := self s; world := w4;
             trace := trace s ++
               [EvSetDefaultNavigationTimeout p timeout;
                EvGoto p (normalize_url url) DomContentLoaded;
                EvWaitForLoadState p NetworkIdle budget;
                EvTitle p] |}
  end.
Proof.
  destruct s as [[b c pg pw] w tr]. simpl. intros -> Hset Hgoto Hdiv Hwait He.
  trace_navigate. follow.
  destruct (page_title eng p w3) as [w4 [title | e4]]; cbn;
    rewrite <- !app_assoc; reflexivity.
Qed.

(** C10, as the code has it.  When [goto] itself raises a timeout,
    [navigate] takes the same soft path: if the title can be read, the
    result is the current URL and title with a warning and status 200, and
    no reload is made; if the title read raises, control passes to the
    reload recovery with that exception. *)
Theorem C10_goto_timeout_is_a_soft_success url timeout (s : state W) p w1 w2 e :
  page (self s) = Some p ->
  page_set_default_navigation_timeout eng p timeout (world s) = (w1, Returned tt) ->
  page_goto eng p (normalize_url url) DomContentLoaded w1 = (w2, Raised e) ->
  is_timeout e = true ->
  match page_title eng p w2 with
  | (w3, Returned title) =>
      navigate eng url timeout s =
        ({| self := self s; world := w3;
            trace := trace s ++
              [EvSetDefaultNavigationTimeout p timeout;
               EvGoto p (normalize_url url) DomContentLoaded;
               EvTitle p] |},
         Returned [("url", PStr (page_url eng p w2));
                   ("title", PStr title);
                   ("status", PInt 200);
                   ("warning", PStr ("Navigation timed out but continuing with available content: " ++ str e));
                   ("message", PStr ("Navigation to " ++ normalize_url url
                                      ++ " timed out, but continuing with available content"))])
      /\ existsb is_reload (calls_made (navigate eng url timeout) s) = false
  | (w3, Raised e') =>
      navigate eng url timeout s =
        navigate_recover eng (normalize_url url) e'
          {| self := self s; world := w3;
             trace := trace s ++
               [EvSetDefaultNavigationTimeout p timeout;
                EvGoto p (normalize_url url) DomContentLoaded;
                EvTitle p] |}
  end.
Proof.
  destruct s as [[b c pg pw] w tr]. simpl. intros -> Hset Hgoto He.
  unfold calls_made. trace_navigate. follow.
  destruct (page_title eng p w2) as [w3 [title | e3]]; cbn;
    rewrite <- !app_assoc, ?skipn_own_length; [split |]; reflexivity.
Qed.

End Navigate.

(** *** Runs on the stub engines *)

Lemma C1_witness_reload_recovers :
  SUGGESTION <> ""
  /\ length (filter is_reload
       (calls_made (navigate (Stub.engine (Stub.failing Stub.OGoto Stub.net_error Stub.healthy))
                      "example.com" DEFAULT_TIMEOUT)
          (Stub.started Stub.blank))) = 1%nat
  /\ navigate (Stub.engine (Stub.failing Stub.OGoto Stub.net_error Stub.healthy))
       "example.com" DEFAULT_TIMEOUT (Stub.started Stub.blank)
     = ({| self := self (Stub.started Stub.blank);
           world := Stub.blank;
           trace := trace (Stub.started Stub.blank) ++
             [EvSetDefaultNavigationTimeout (Page 3) DEFAULT_TIMEOUT;
              EvGoto (Page 3) (normalize_url "example.com") DomContentLoaded;
              EvReload (Page 3) DomContentLoaded;
              EvTitle (Page 3)] |},
        Returned [("url", PStr "about:blank");
                  ("title", PStr "");
                  ("status", PInt 200);
                  ("warning", PStr ("Recovered from navigation error: " ++ str Stub.net_error));
                  ("message", PStr "Page recovered after navigation error")]).
Proof.
  exact (C1_goto_failure_is_met_by_one_reload
           (Stub.engine (Stub.failing Stub.OGoto Stub.net_error Stub.healthy))
           "example.com" DEFAULT_TIMEOUT (Stub.started Stub.blank)
           (Page 3) Stub.blank Stub.blank Stub.net_error
           eq_refl eq_refl eq_refl eq_refl).
Defined.

(** C1, as the spec has it, fails: [goto] raises, the reload returns, the
    title cannot be read after it, and [navigate] returns the error, with
    no warning. *)
Lemma C1_counterexample_title_fails_after_reload :
  let eng := Stub.engine (Stub.failing Stub.OGoto Stub.net_error
                            (Stub.failing Stub.OTitle Stub.context_destroyed Stub.healthy)) in
  let s := Stub.started Stub.blank in
  page_goto eng (Page 3) "https://example.com" DomContentLoaded Stub.blank
    = (Stub.blank, Raised Stub.net_error)
  /\ is_timeout Stub.net_error = false
  /\ page_reload eng (Page 3) DomContentLoaded Stub.blank
     = (Stub.blank, Returned (Some {| status := 200 |}))
  /\ calls_made (navigate eng "example.com" DEFAULT_TIMEOUT) s
     = [EvSetDefaultNavigationTimeout (Page 3) 30000;
        EvGoto (Page 3) "https://example.com" DomContentLoaded;
        EvReload (Page 3) DomContentLoaded;
        EvTitle (Page 3)]
  /\ snd (navigate eng "example.com" DEFAULT_TIMEOUT s)
     = Returned [("error", PStr "Navigation to https://example.com failed: net::ERR_NAME_NOT_RESOLVED");
                 ("suggestion", PStr SUGGESTION)].
Proof. repeat split. Qed.

Lemma C2_witness_idle_timeout :
  navigate (Stub.engine (Stub.failing Stub.OWait Stub.timed_out Stub.healthy))
    "example.com" DEFAULT_TIMEOUT (Stub.started Stub.blank)
  = ({| self := self (Stub.started Stub.blank);
        world := {| Stub.shown_url := "https://example.com";
                    Stub.shown_title := "Title of https://example.com" |};
        trace := trace (Stub.started Stub.blank) ++
          [EvSetDefaultNavigationTimeout (Page 3) DEFAULT_TIMEOUT;
           EvGoto (Page 3) (normalize_url "example.com") DomContentLoaded;
           EvWaitForLoadState (Page 3) NetworkIdle (QArith_base.Qmake 30000 2);
           EvTitle (Page 3)] |},
     Returned [("url", PStr "https://example.com");
               ("title", PStr "Title of https://example.com");
               ("status", PInt 200);
               ("warning", PStr ("Navigation timed out but continuing with available content: "
                                 ++ str Stub.timed_out));
               ("message", PStr ("Navigation to " ++ normalize_url "example.com"
                                  ++ " timed out, but continuing with available content"))]).
Proof.
  exact (C2_idle_timeout_is_a_soft_success
           (Stub.engine (Stub.failing Stub.OWait Stub.timed_out Stub.healthy))
           "example.com" DEFAULT_TIMEOUT (Stub.started Stub.blank)
           (Page 3) Stub.blank
           {| Stub.shown_url := "https://example.com";
              Stub.shown_title := "Title of https://example.com" |}
           {| Stub.shown_url := "https://example.com";
              Stub.shown_title := "Title of https://example.com" |}
           (Some {| status := 200 |}) (QArith_base.Qmake 30000 2) Stub.timed_out
           eq_refl eq_refl eq_refl eq_refl eq_refl eq_refl).
Defined.

(** C2, as the spec has it, fails: [goto] returns, the idle wait times
    out, the title cannot be read, the reload raises, and [navigate]
    returns the error: no status, no warning. *)
Lemma C2_counterexample_title_fails_after_idle_timeout :
  let eng := Stub.engine (Stub.failing Stub.OWait Stub.timed_out
                            (Stub.failing Stub.OTitle Stub.context_destroyed
                               (Stub.failing Stub.OReload Stub.net_error Stub.healthy))) in
  let s := Stub.started Stub.blank in
  calls_made (navigate eng "example.com" DEFAULT_TIMEOUT) s
    = [EvSetDefaultNavigationTimeout (Page 3) 30000;
       EvGoto (Page 3) "https://example.com" DomContentLoaded;
       EvWaitForLoadState (Page 3) NetworkIdle (QArith_base.Qmake 30000 2);
       EvTitle (Page 3);
       EvReload (Page 3) DomContentLoaded]
  /\ fst (page_goto eng (Page 3) "https://example.com" DomContentLoaded Stub.blank)
     = world (fst (navigate eng "example.com" DEFAULT_TIMEOUT s))
  /\ snd (page_goto eng (Page 3) "https://example.com" DomContentLoaded Stub.blank)
     = Returned (Some {| status := 200 |})
  /\ snd (page_wait_for_load_state eng (Page 3) NetworkIdle (QArith_base.Qmake 30000 2)
            (world (fst (navigate eng "example.com" DEFAULT_TIMEOUT s))))
     = Raised Stub.timed_out
  /\ is_timeout Stub.timed_out = true
  /\ snd (navigate eng "example.com" DEFAULT_TIMEOUT s)
     = Returned [("error", PStr "Navigation to https://example.com failed: Execution context was destroyed, most likely because of a navigation");
                 ("suggestion", PStr SUGGESTION)].
Proof. repeat split. Qed.

Lemma C10_witness_goto_timeout :
  navigate (Stub.engine (Stub.failing Stub.OGoto Stub.timed_out Stub.healthy))
    "example.com" DEFAULT_TIMEOUT (Stub.started Stub.example_com)
  = ({| self := self (Stub.started Stub.example_com);
        world := Stub.example_com;
        trace := trace (Stub.started Stub.example_com) ++
          [EvSetDefaultNavigationTimeout (Page 3) DEFAULT_TIMEOUT;
           EvGoto (Page 3) (normalize_url "example.com") DomContentLoaded;
           EvTitle (Page 3)] |},
     Returned [("url", PStr "https://example.com/");
               ("title", PStr "Example Domain");
               ("status", PInt 200);
               ("warning", PStr ("Navigation timed out but continuing with available content: "
                                 ++ str Stub.timed_out));
               ("message", PStr ("Navigation to " ++ normalize_url "example.com"
                                  ++ " timed out, but continuing with available content"))])
  /\ existsb is_reload
       (calls_made (navigate (Stub.engine (Stub.failing Stub.OGoto Stub.timed_out Stub.healthy))
                      "example.com" DEFAULT_TIMEOUT)
          (Stub.started Stub.example_com)) = false.
Proof.
  exact (C10_goto_timeout_is_a_soft_success
           (Stub.engine (Stub.failing Stub.OGoto Stub.timed_out Stub.healthy))
           "example.com" DEFAULT_TIMEOUT (Stub.started Stub.example_com)
           (Page 3) Stub.example_com Stub.example_com Stub.timed_out
           eq_refl eq_refl eq_refl eq_refl).
Defined.

(** C10, as the spec has it, fails: [goto] times out, the title cannot be
    read, and the reload is attempted. *)
Lemma C10_counterexample_reload_after_goto_timeout :
  let eng := Stub.engine (Stub.failing Stub.OGoto Stub.timed_out
                            (Stub.failing Stub.OTitle Stub.context_destroyed Stub.healthy)) in
  let s := Stub.started Stub.example_com in
  page_goto eng (Page 3) "https://example.com" DomContentLoaded Stub.example_com
    = (Stub.example_com, Raised Stub.timed_out)
  /\ is_timeout Stub.timed_out = true
  /\ calls_made (navigate eng "example.com" DEFAULT_TIMEOUT) s
     = [EvSetDefaultNavigationTimeout (Page 3) 30000;
        EvGoto (Page 3) "https://example.com" DomContentLoaded;
        EvTitle (Page 3);
        EvReload (Page 3) DomContentLoaded;
        EvTitle (Page 3)]
  /\ existsb is_reload (calls_made (navigate eng "example.com" DEFAULT_TIMEOUT) s) = true
  /\ snd (navigate eng "example.com" DEFAULT_TIMEOUT s)
     = Returned [("error", PStr "Navigation to https://example.com failed: Execution context was destroyed, most likely because of a navigation");
                 ("suggestion", PStr SUGGESTION)].
Proof. repeat split. Qed.

(** * Further properties of the controller *)

Section Lifecycle.

Context {W : Type} (eng : Engine.t W).

(** Splits on what each driver call of the goal does. *)
Ltac engine_split :=
  repeat match goal with
         | |- context [match ?c with pair _ _ => _ end] =>
             lazymatch c with
             | context [match _ with pair _ _ => _ end] => fail
             | _ => destruct c as [? [? | ?]]; cbn
             end
         end.

(** Brings [calls_made] of an unfolded run down to the list of calls. *)
Ltac calls := rewrite <- ?app_assoc, ?app_nil_r; cbn;
  rewrite ?skipn_own_length, ?skipn_all; cbn.

(** X1.  [start] follows the four launch calls.  It starts the driver,
    launches a headed Chromium with the driver it got, opens a context in
    that browser and a page in that context, and keeps each handle in its
    field as soon as the call returns.  When all four return, the result is
    the started status.  When one raises, no later call is made, the fields
    of the calls that returned are set, the others are as they were, and
    the result is an error with the message of the exception raised. *)
Theorem X1_start_follows_the_launch_calls (s : state W) :
  start eng s =
    match async_playwright_start eng (world s) with
    | (w1, Raised e) =>
        ({| self := self s; world := w1;
            trace := trace s ++ [EvAsyncPlaywrightStart] |},
         Returned [("error", PStr ("Failed to start browser: " ++ str e))])
    | (w1, Returned pw) =>
        match chromium_launch eng pw false w1 with
        | (w2, Raised e) =>
            ({| self := {| browser := browser (self s);
                           context := context (self s);
                           page := page (self s);
                           playwright := Some pw |};
                world := w2;
                trace := trace s ++ [EvAsyncPlaywrightStart;
                                     EvChromiumLaunch pw false] |},
             Returned [("error", PStr ("Failed to start browser: " ++ str e))])
        | (w2, Returned b) =>
            match browser_new_context eng b w2 with
            | (w3, Raised e) =>
                ({| self := {| browser := Some b;
                               context := context (self s);
                               page := page (self s);
                               playwright := Some pw |};
                    world := w3;
                    trace := trace s ++ [EvAsyncPlaywrightStart;
                                         EvChromiumLaunch pw false;
                                         EvNewContext b] |},
                 Returned [("error",
                            PStr ("Failed to start browser: " ++ str e))])
            | (w3, Returned c) =>
                match context_new_page eng c w3 with
                | (w4, Raised e) =>
                    ({| self := {| browser := Some b;
                                   context := Some c;
                                   page := page (self s);
                                   playwright := Some pw |};
                        world := w4;
                        trace := trace s ++ [EvAsyncPlaywrightStart;
                                             EvChromiumLaunch pw false;
                                             EvNewContext b;
                                             EvNewPage c] |},
                     Returned [("error",
                                PStr ("Failed to start browser: " ++ str e))])
                | (w4, Returned p) =>
                    ({| self := {| browser := Some b;
                                   context := Some c;
                                   page := Some p;
                                   playwright := Some pw |};
                        world := w4;
                        trace := trace s ++ [EvAsyncPlaywrightStart;
                                             EvChromiumLaunch pw false;
                                             EvNewContext b;
                                             EvNewPage c] |},
                     Returned [("status", PStr "Browser started")])
                end
            end
        end
    end.
Proof.
  destruct s as [[b c p pw] w tr].
  unfold start, try_except, bind, call, assign, deref, ret; cbn.
  destruct (async_playwright_start eng w) as [w1 [pw1 | e]]; cbn;
    [| reflexivity].
  destruct (chromium_launch eng pw1 false w1) as [w2 [b1 | e]]; cbn;
    [| rewrite <- !app_assoc; reflexivity].
  destruct (browser_new_context eng b1 w2) as [w3 [c1 | e]]; cbn;
    [| rewrite <- !app_assoc; reflexivity].
  destruct (context_new_page eng c1 w3) as [w4 [p1 | e]]; cbn;
    rewrite <- !app_assoc; reflexivity.
Qed.

(** X2.  [start] makes launch calls only: on a session that already holds a
    browser it closes nothing, it just overwrites the handles it gets. *)
Theorem X2_start_never_closes_a_browser (s : state W) :
  forallb is_launch_step (calls_made (start eng) s) = true.
Proof.
  destruct s as [[b c p pw] w tr].
  unfold calls_made, start, try_except, bind, call, assign, deref, ret; cbn.
  engine_split; calls; reflexivity.
Qed.

End Lifecycle.

Section Actions.

Context {W : Type} (eng : Engine.t W).
#[local] Arguments normalize_url : simpl never.
#[local] Arguments truediv2 : simpl never.
#[local] Arguments b64encode : simpl never.

(** Unfolds the eight actions down to the driver calls. *)
Ltac open_actions :=
  unfold calls_made, navigate, navigate_primary, navigate_recover, click,
    type_text, get_content, take_screenshot, get_cookies, add_cookies,
    delete_cookies, try_except_timeout, try_except, bind, read,
    self_page_title, self_page_url, deref, call, ret, raise; cbn.

(** Splits on every driver answer, division and exception class met. *)
Ltac answers :=
  repeat match goal with
         | |- context [match ?c with pair _ _ => _ end] =>
             lazymatch c with
             | context [match _ with pair _ _ => _ end] => fail
             | _ => destruct c as [? [? | ?]]; cbn
             end
         | |- context [truediv2 ?t] => destruct (truediv2 t); cbn
         | |- context [is_timeout ?e] => destruct (is_timeout e); cbn
         end.

Ltac calls := rewrite <- ?app_assoc, ?app_nil_r; cbn;
  rewrite ?skipn_own_length, ?skipn_all; cbn.

(** X3.  Whatever the engine answers, every driver call an action makes is
    a call on the page or on the cookie store the session holds: an action
    never launches or closes a browser and never uses another handle. *)
Theorem X3_actions_only_use_the_session_handles (a : action) (s : state W) :
  forallb (on_session (self s)) (calls_made (perform eng a) s) = true.
Proof.
  destruct s as [[b c p pw] w tr].
  destruct p as [[i] |], c as [[j] |], a; cbn [perform];
    open_actions; answers; calls;
    unfold is_page, is_context; cbn; rewrite ?N.eqb_refl; reflexivity.
Qed.

(** X4.  One [navigate] asks the driver for at most one [goto] and at most
    one [reload], and makes at most seven driver calls in all: a failed
    navigation is never retried. *)
Theorem X4_navigate_never_retries (url : string) (timeout : Z) (s : state W) :
  (length (filter is_goto (calls_made (navigate eng url timeout) s)) <= 1)%nat
  /\ (length (filter is_reload (calls_made (navigate eng url timeout) s)) <= 1)%nat
  /\ (length (calls_made (navigate eng url timeout) s) <= 7)%nat.
Proof.
  destruct s as [[b c p pw] w tr].
  destruct p as [p |]; open_actions; answers; calls; repeat split; lia.
Qed.

(** Above [2 ^ 1025] in magnitude, [timeout / 2] does not fit a float. *)
Lemma round53_keeps_magnitude (z : Z) :
  2 ^ 1025 <= Z.abs z -> 2 ^ 1025 <= Z.abs (round53 z).
Proof.
  intros Hbig. unfold round53.
  assert (Hpos : 0 < Z.abs z) by (pose proof (Z.pow_pos_nonneg 2 1025); lia).
  assert (Hlog : 1025 <= Z.log2 (Z.abs z)) by (apply Z.log2_le_pow2; lia).
  destruct (Z.leb_spec (Z.log2 (Z.abs z) + 1) 53) as [H | _]; [lia |].
  set (a := Z.abs z) in *. set (k := Z.log2 a + 1 - 53).
  assert (Hk : 0 <= k) by (unfold k; lia).
  assert (Ha : 2 ^ 52 * 2 ^ k <= a).
  { rewrite <- Z.pow_add_r by lia.
    replace (52 + k) with (Z.log2 a) by (unfold k; lia).
    apply Z.log2_spec. exact Hpos. }
  assert (Hq : 2 ^ 52 <= Z.shiftr a k).
  { rewrite Z.shiftr_div_pow2 by lia.
    apply Z.div_le_lower_bound; [apply Z.pow_pos_nonneg; lia |].
    rewrite Z.mul_comm. exact Ha. }
  set (q := Z.shiftr a k) in *.
  match goal with |- context [if ?c then q + 1 else q] =>
    set (q' := if c then q + 1 else q) end.
  assert (Hq' : q <= q').
  { unfold q'.
    match goal with |- context [if ?c then _ else _] => destruct c end; lia. }
  rewrite Z.abs_mul, Z.shiftl_mul_pow2 by lia.
  assert (Hs : Z.abs (Z.sgn z) = 1).
  { unfold a in Hpos. destruct z; simpl in *; lia. }
  rewrite Hs, Z.mul_1_l.
  assert (Hp : 0 < 2 ^ k) by (apply Z.pow_pos_nonneg; lia).
  rewrite Z.abs_eq by nia.
  assert (2 ^ 1025 <= 2 ^ Z.log2 a) by (apply Z.pow_le_mono_r; lia).
  assert (2 ^ Z.log2 a = 2 ^ 52 * 2 ^ k).
  { rewrite <- Z.pow_add_r by lia. f_equal. unfold k. lia. }
  nia.
Qed.

Lemma truediv2_overflows (timeout : Z) :
  2 ^ 1025 <= Z.abs timeout ->
  truediv2 timeout =
    Raised (PyException "OverflowError"
              "integer division result too large for a float").
Proof.
  intros H. apply round53_keeps_magnitude in H. unfold truediv2.
  apply Z.leb_le in H. rewrite H. reflexivity.
Qed.

(** Follows the driver's answers given as hypotheses. *)
Ltac given :=
  repeat match goal with
         | H : ?c = (_, _) |- context [?c] => rewrite H; cbn
         | H : truediv2 ?t = _ |- context [truediv2 ?t] => rewrite H; cbn
         end.

(** X5.  The primary path of [navigate].  With a timeout below [2 ^ 53] in
    magnitude, when [goto], the idle wait and the title read all return,
    the idle wait was given exactly half the timeout, and the result
    carries the URL the page shows after the wait, the title, and as
    status the status of the driver's response, or 200 when the driver
    returned no response. *)
Theorem X5_navigate_success_reports_the_response_status
    url timeout (s : state W) p w1 w2 w3 w4 response title :
  page (self s) = Some p ->
  Z.abs timeout < 2 ^ 53 ->
  page_set_default_navigation_timeout eng p timeout (world s) = (w1, Returned tt) ->
  page_goto eng p (normalize_url url) DomContentLoaded w1 = (w2, Returned response) ->
  page_wait_for_load_state eng p NetworkIdle (QArith_base.Qmake timeout 2) w2
    = (w3, Returned tt) ->
  page_title eng p w3 = (w4, Returned title) ->
  navigate eng url timeout s =
    ({| self := self s; world := w4;
        trace := trace s ++
          [EvSetDefaultNavigationTimeout p timeout;
           EvGoto p (normalize_url url) DomContentLoaded;
           EvWaitForLoadState p NetworkIdle (QArith_base.Qmake timeout 2);
           EvTitle p] |},
     Returned [("url", PStr (page_url eng p w3));
               ("title", PStr title);
               ("status", PInt match response with
                               | Some r => status r
                               | None => 200
                               end);
               ("message", PStr ("Successfully navigated to " ++ page_url eng p w3))]).
Proof.
  destruct s as [[b c pg pw] w tr]. simpl.
  intros -> Hsmall Hset Hgoto Hwait Htitle.
  apply truediv2_exact in Hsmall.
  open_actions. given. rewrite <- !app_assoc. reflexivity.
Qed.

(** X6.  A timeout of magnitude [2 ^ 1025] or more cannot be halved into a
    float: after a [goto] that returns, the idle wait is never asked for,
    and [navigate] goes to the reload recovery with the [OverflowError] of
    the division. *)
Theorem X6_navigate_with_unrepresentable_budget
    url timeout (s : state W) p w1 w2 response :
  page (self s) = Some p ->
  2 ^ 1025 <= Z.abs timeout ->
  page_set_default_navigation_timeout eng p timeout (world s) = (w1, Returned tt) ->
  page_goto eng p (normalize_url url) DomContentLoaded w1 = (w2, Returned response) ->
  navigate eng url timeout s =
    navigate_recover eng (normalize_url url)
      (PyException "OverflowError" "integer division result too large for a float")
      {| self := self s; world := w2;
         trace := trace s ++
           [EvSetDefaultNavigationTimeout p timeout;
            EvGoto p (normalize_url url) DomContentLoaded] |}.
Proof.
  destruct s as [[b c pg pw] w tr]. simpl. intros -> Hbig Hset Hgoto.
  apply truediv2_overflows in Hbig.
  open_actions. given. rewrite <- !app_assoc. reflexivity.
Qed.

(** X7.  [click] and [type_text] make one driver call each, with a budget
    of 30000 ms whatever the caller wants.  A timeout is reported by the
    selector alone, any other failure by the engine's message, and success
    by the selector. *)
Theorem X7_click_and_type_text_outcomes selector text (s : state W) p :
  page (self s) = Some p ->
  click eng selector s =
    (let (w', r) := page_click eng p selector 30000 (world s) in
     ({| self := self s; world := w';
         trace := trace s ++ [EvClick p selector 30000] |},
      Returned match r with
               | Returned _ => [("status", PStr ("Clicked element: " ++ selector))]
               | Raised (PlaywrightTimeoutError _) =>
                   [("error", PStr ("Click timed out: " ++ selector))]
               | Raised (PyException _ msg) =>
                   [("error", PStr ("Click failed: " ++ msg))]
               end))
  /\ type_text eng selector text s =
    (let (w', r) := page_fill eng p selector text 30000 (world s) in
     ({| self := self s; world := w';
         trace := trace s ++ [EvFill p selector text 30000] |},
      Returned match r with
               | Returned _ => [("status", PStr ("Typed text into: " ++ selector))]
               | Raised (PlaywrightTimeoutError _) =>
                   [("error", PStr ("Type text timed out: " ++ selector))]
               | Raised (PyException _ msg) =>
                   [("error", PStr ("Type text failed: " ++ msg))]
               end)).
Proof.
  destruct s as [[b c pg pw] w tr]. simpl. intros ->.
  split; open_actions.
  - destruct (page_click eng p selector 30000 w) as [w' [[] | [m | k m]]];
      reflexivity.
  - destruct (page_fill eng p selector text 30000 w) as [w' [[] | [m | k m]]];
      reflexivity.
Qed.

(** X8.  On a session with a page, [get_content] always returns a result
    with the keys [title], [content] and [url], after at most two driver
    calls; the result carries [error] exactly when [title()] or
    [evaluate()] raised, and otherwise holds what they returned and the
    URL shown after them. *)
Theorem X8_get_content_always_has_its_three_keys (s : state W) p :
  page (self s) = Some p ->
  exists s' d,
    get_content eng s = (s', Returned d)
    /\ has_key d "title" = true
    /\ has_key d "content" = true
    /\ has_key d "url" = true
    /\ (length (calls_made (get_content eng) s) <= 2)%nat
    /\ match page_title eng p (world s) with
       | (w1, Returned title) =>
           match page_evaluate eng p CONTENT_SCRIPT w1 with
           | (w2, Returned content) =>
               d = [("title", PStr title); ("content", content);
                    ("url", PStr (page_url eng p w2))]
           | (_, Raised _) => is_error d = true
           end
       | (_, Raised _) => is_error d = true
       end.
Proof.
  destruct s as [[b c pg pw] w tr]. simpl. intros ->.
  open_actions.
  destruct (page_title eng p w) as [w1 [title | e]]; cbn.
  - destruct (page_evaluate eng p CONTENT_SCRIPT w1) as [w2 [content | e]]; cbn;
      eexists _, _; (split; [reflexivity |]); calls; repeat split; lia.
  - eexists _, _; (split; [reflexivity |]); calls; repeat split; lia.
Qed.

End Actions.

Lemma b64encode_length (bs : list byte) :
  String.length (b64encode bs) = (4 * ((List.length bs + 2) / 3))%nat.
Proof.
  revert bs. fix IH 1. intros [| a [| b [| c rest]]]; try reflexivity.
  change (b64encode (a :: b :: c :: rest))
    with (let n := N.lor (N.lor (N.shiftl (Byte.to_N a) 16)
                              (N.shiftl (Byte.to_N b) 8)) (Byte.to_N c) in
        String (sextet n 3) (String (sextet n 2)
          (String (sextet n 1) (String (sextet n 0) (b64encode rest))))).
  cbv zeta. cbn [String.length List.length]. rewrite IH.
  replace (S (S (S (List.length rest))) + 2)%nat
    with (List.length rest + 2 + 1 * 3)%nat by lia.
  rewrite Nat.div_add by lia. lia.
Qed.

Section Passthrough.

Context {W : Type} (eng : Engine.t W).
#[local] Arguments b64encode : simpl never.

(** X9.  When the driver returns the bytes of a capture, [take_screenshot]
    returns them base64-encoded under [screenshot], with the type
    [image/png]: four characters for every three bytes, the last group
    padded. *)
Theorem X9_take_screenshot_encodes_the_capture (s : state W) p w' bytes :
  page (self s) = Some p ->
  page_screenshot eng p "png" (world s) = (w', Returned bytes) ->
  take_screenshot eng s =
    ({| self := self s; world := w';
        trace := trace s ++ [EvScreenshot p "png"] |},
     Returned [("screenshot", PStr (b64encode bytes));
               ("type", PStr "image/png")])
  /\ String.length (b64encode bytes) = (4 * ((List.length bytes + 2) / 3))%nat.
Proof.
  destruct s as [[b c pg pw] w tr]. simpl. intros -> Hshot.
  split; [| apply b64encode_length].
  unfold take_screenshot, try_except, bind, read, deref, call, ret; cbn.
  rewrite Hshot. reflexivity.
Qed.

(** X10.  [get_cookies] and [add_cookies] pass through.  On a started
    session each makes one call on the session's context: [add_cookies]
    hands the caller's list to the driver as it is, [get_cookies] returns
    the driver's list as it is, and a driver failure comes back as an error
    with the driver's message. *)
Theorem X10_get_and_add_cookies_pass_through cookies (s : state W) p c :
  page (self s) = Some p ->
  context (self s) = Some c ->
  get_cookies eng s =
    (let (w', r) := context_cookies eng c (world s) in
     ({| self := self s; world := w'; trace := trace s ++ [EvCookies c] |},
      Returned match r with
               | Returned jar => [("cookies", PList (map PDict jar))]
               | Raised e => [("error", PStr ("Failed to get cookies: " ++ str e))]
               end))
  /\ add_cookies eng cookies s =
    (let (w', r) := context_add_cookies eng c cookies (world s) in
     ({| self := self s; world := w';
         trace := trace s ++ [EvAddCookies c cookies] |},
      Returned match r with
               | Returned _ => [("status", PStr "Cookies added")]
               | Raised e => [("error", PStr ("Failed to add cookies: " ++ str e))]
               end)).
Proof.
  destruct s as [[b c0 pg pw] w tr]. simpl. intros -> ->.
  unfold get_cookies, add_cookies, try_except, bind, read, deref, call, ret;
    cbn.
  split.
  - destruct (context_cookies eng c w) as [w' [jar | e]]; reflexivity.
  - destruct (context_add_cookies eng c cookies w) as [w' [[] | e]]; reflexivity.
Qed.

End Passthrough.

Section Teardown.

Context {W : Type} (eng : Engine.t W).


End Teardown.

Section AfterClose.

Context {W : Type} (eng : Engine.t W).

Lemma perform_without_page (a : action) (s : state W) :
  page (self s) = None ->
  perform eng a s =
    (s, Returned match a with
                 | GetContent => NO_ACTIVE_PAGE
                 | _ => NOT_INITIALIZED
                 end).
Proof.
  intros Hpage.
  destruct a; simpl;
    unfold navigate, click, type_text, get_content, take_screenshot,
      get_cookies, add_cookies, delete_cookies, bind, read;
    rewrite Hpage; reflexivity.
Qed.

(** X12.  Once a [close] has returned, the session is as it was before
    [start]: a second [close] returns the closed status without a driver
    call, and every action is refused with an error, the state untouched. *)
Theorem X12_after_close_the_session_is_unset (s s1 : state W) d :
  close eng s = (s1, Returned d) ->
  self s1 = __init__
  /\ close eng s1 = (s1, Returned CLOSED)
  /\ forall a, exists r,
       perform eng a s1 = (s1, Returned r) /\ is_error r = true.
Proof.
  intros Hclose. pose proof (close_outcome eng s) as H.
  rewrite Hclose in H. destruct H as [_ Hunset].
  split; [exact Hunset |]. split; [apply close_when_unset; exact Hunset |].
  intros a. eexists. split.
  - apply perform_without_page. rewrite Hunset. reflexivity.
  - destruct a; reflexivity.
Qed.

(** X13.  Whatever the engine does, [start] and the eight actions hand
    their caller a result: no exception of the engine reaches it. *)
Theorem X13_start_and_actions_never_raise :
  never_raises (start eng) /\ forall a, never_raises (perform eng a).
Proof.
  split; [apply start_never_raises | apply perform_never_raises].
Qed.

End AfterClose.

(** *** Runs on the stub engines *)

Example navigate_can_make_seven_calls :
  calls_made
    (navigate (Stub.engine (Stub.failing Stub.OTitle Stub.timed_out Stub.healthy))
       "example.com" DEFAULT_TIMEOUT)
    (Stub.started Stub.blank)
  = [EvSetDefaultNavigationTimeout (Page 3) 30000;
     EvGoto (Page 3) "https://example.com" DomContentLoaded;
     EvWaitForLoadState (Page 3) NetworkIdle (QArith_base.Qmake 30000 2);
     EvTitle (Page 3);
     EvTitle (Page 3);
     EvReload (Page 3) DomContentLoaded;
     EvTitle (Page 3)].
Proof. reflexivity. Qed.

Lemma X5_witness_healthy_navigation :
  navigate (Stub.engine Stub.healthy) "example.com" DEFAULT_TIMEOUT
    (Stub.started Stub.blank)
  = ({| self := self (Stub.started Stub.blank);
        world := {| Stub.shown_url := "https://example.com";
                    Stub.shown_title := "Title of https://example.com" |};
        trace := trace (Stub.started Stub.blank) ++
          [EvSetDefaultNavigationTimeout (Page 3) DEFAULT_TIMEOUT;
           EvGoto (Page 3) (normalize_url "example.com") DomContentLoaded;
           EvWaitForLoadState (Page 3) NetworkIdle
             (QArith_base.Qmake DEFAULT_TIMEOUT 2);
           EvTitle (Page 3)] |},
     Returned [("url", PStr "https://example.com");
               ("title", PStr "Title of https://example.com");
               ("status", PInt 200);
               ("message", PStr ("Successfully navigated to " ++ "https://example.com"))]).
Proof.
  apply (X5_navigate_success_reports_the_response_status
           (Stub.engine Stub.healthy) "example.com" DEFAULT_TIMEOUT
           (Stub.started Stub.blank) (Page 3) Stub.blank
           {| Stub.shown_url := "https://example.com";
              Stub.shown_title := "Title of https://example.com" |}
           {| Stub.shown_url := "https://example.com";
              Stub.shown_title := "Title of https://example.com" |}
           {| Stub.shown_url := "https://example.com";
              Stub.shown_title := "Title of https://example.com" |}
           (Some {| status := 200 |}) "Title of https://example.com");
    [reflexivity | vm_compute; reflexivity | reflexivity | reflexivity
    | reflexivity | reflexivity].
Defined.

Lemma X6_witness_huge_timeout :
  navigate (Stub.engine Stub.healthy) "example.com" (2 ^ 1025)
    (Stub.started Stub.blank)
  = navigate_recover (Stub.engine Stub.healthy) (normalize_url "example.com")
      (PyException "OverflowError" "integer division result too large for a float")
      {| self := self (Stub.started Stub.blank);
         world := {| Stub.shown_url := "https://example.com";
                     Stub.shown_title := "Title of https://example.com" |};
         trace := trace (Stub.started Stub.blank) ++
           [EvSetDefaultNavigationTimeout (Page 3) (2 ^ 1025);
            EvGoto (Page 3) (normalize_url "example.com") DomContentLoaded] |}.
Proof.
  apply (X6_navigate_with_unrepresentable_budget
           (Stub.engine Stub.healthy) "example.com" (2 ^ 1025)
           (Stub.started Stub.blank) (Page 3) Stub.blank
           {| Stub.shown_url := "https://example.com";
              Stub.shown_title := "Title of https://example.com" |}
           (Some {| status := 200 |}));
    [reflexivity | vm_compute; discriminate | reflexivity | reflexivity].
Defined.

Example huge_timeout_result :
  snd (navigate (Stub.engine Stub.healthy) "example.com" (2 ^ 1025)
         (Stub.started Stub.blank))
  = Returned [("url", PStr "https://example.com");
              ("title", PStr "Title of https://example.com");
              ("status", PInt 200);
              ("warning", PStr "Recovered from navigation error: integer division result too large for a float");
              ("message", PStr "Page recovered after navigation error")].
Proof. vm_compute. reflexivity. Qed.

Lemma X7_witness_click_times_out :
  click (Stub.engine (Stub.failing Stub.OClick Stub.timed_out Stub.healthy))
    "#submit" (Stub.started Stub.blank)
  = ({| self := self (Stub.started Stub.blank); world := Stub.blank;
        trace := trace (Stub.started Stub.blank)
                 ++ [EvClick (Page 3) "#submit" 30000] |},
     Returned [("error", PStr ("Click timed out: " ++ "#submit"))])
  /\ type_text (Stub.engine (Stub.failing Stub.OClick Stub.timed_out Stub.healthy))
       "#submit" "hello" (Stub.started Stub.blank)
  = ({| self := self (Stub.started Stub.blank); world := Stub.blank;
        trace := trace (Stub.started Stub.blank)
                 ++ [EvFill (Page 3) "#submit" "hello" 30000] |},
     Returned [("status", PStr ("Typed text into: " ++ "#submit"))]).
Proof.
  exact (X7_click_and_type_text_outcomes
           (Stub.engine (Stub.failing Stub.OClick Stub.timed_out Stub.healthy))
           "#submit" "hello" (Stub.started Stub.blank) (Page 3) eq_refl).
Defined.

Lemma X8_witness_content_of_example_com :
  exists s' d,
    get_content (Stub.engine Stub.healthy) (Stub.started Stub.example_com)
      = (s', Returned d)
    /\ has_key d "title" = true
    /\ has_key d "content" = true
    /\ has_key d "url" = true
    /\ (length (calls_made (get_content (Stub.engine Stub.healthy))
                  (Stub.started Stub.example_com)) <= 2)%nat
    /\ d = [("title", PStr "Example Domain");
            ("content", PStr "Example Domain");
            ("url", PStr "https://example.com/")].
Proof.
  exact (X8_get_content_always_has_its_three_keys (Stub.engine Stub.healthy)
           (Stub.started Stub.example_com) (Page 3) eq_refl).
Defined.

Lemma X9_witness_png_header :
  take_screenshot (Stub.engine Stub.healthy) (Stub.started Stub.blank)
  = ({| self := self (Stub.started Stub.blank); world := Stub.blank;
        trace := trace (Stub.started Stub.blank)
                 ++ [EvScreenshot (Page 3) "png"] |},
     Returned [("screenshot", PStr (b64encode [x89; x50; x4e; x47]%byte));
               ("type", PStr "image/png")])
  /\ String.length (b64encode [x89; x50; x4e; x47]%byte)
     = (4 * ((List.length [x89; x50; x4e; x47]%byte + 2) / 3))%nat.
Proof.
  exact (X9_take_screenshot_encodes_the_capture (Stub.engine Stub.healthy)
           (Stub.started Stub.blank) (Page 3) Stub.blank
           [x89; x50; x4e; x47]%byte eq_refl eq_refl).
Defined.

Lemma X10_witness_get_and_add_on_started_agent :
  get_cookies (Stub.engine Stub.healthy) (Stub.started Stub.blank)
  = ({| self := self (Stub.started Stub.blank); world := Stub.blank;
        trace := trace (Stub.started Stub.blank)
                 ++ [EvCookies (BrowserContext 2)] |},
     Returned [("cookies", PList [])])
  /\ add_cookies (Stub.engine Stub.healthy)
       [[("name", PStr "a"); ("value", PStr "b"); ("domain", PStr "x")]]
       (Stub.started Stub.blank)
  = ({| self := self (Stub.started Stub.blank); world := Stub.blank;
        trace := trace (Stub.started Stub.blank)
                 ++ [EvAddCookies (BrowserContext 2)
                       [[("name", PStr "a"); ("value", PStr "b");
                         ("domain", PStr "x")]]] |},
     Returned [("status", PStr "Cookies added")]).
Proof.
  exact (X10_get_and_add_cookies_pass_through (Stub.engine Stub.healthy)
           [[("name", PStr "a"); ("value", PStr "b"); ("domain", PStr "x")]]
           (Stub.started Stub.blank) (Page 3) (BrowserContext 2)
           eq_refl eq_refl).
Defined.

Lemma X12_witness_close_of_started_agent :
  let closed :=
    {| self := __init__; world := Stub.blank;
       trace := [EvAsyncPlaywrightStart;
                 EvChromiumLaunch (Playwright 0) false;
                 EvNewContext (Browser 1);
                 EvNewPage (BrowserContext 2);
                 EvBrowserClose (Browser 1);
                 EvPlaywrightStop (Playwright 0)] |} in
  self closed = __init__
  /\ close (Stub.engine Stub.healthy) closed = (closed, Returned CLOSED)
  /\ forall a, exists r,
       perform (Stub.engine Stub.healthy) a closed = (closed, Returned r)
       /\ is_error r = true.
Proof.
  exact (X12_after_close_the_session_is_unset (Stub.engine Stub.healthy)
           (Stub.started Stub.blank)
           {| self := __init__; world := Stub.blank;
              trace := [EvAsyncPlaywrightStart;
                        EvChromiumLaunch (Playwright 0) false;
                        EvNewContext (Browser 1);
                        EvNewPage (BrowserContext 2);
                        EvBrowserClose (Browser 1);
                        EvPlaywrightStop (Playwright 0)] |}
           CLOSED eq_refl).
Defined.

(** * The routing layer *)

Section HttpLayer.

Context {W : Type} (eng : Engine.t W).
#[local] Arguments normalize_url : simpl never.
#[local] Arguments truediv2 : simpl never.


(** X14.  The endpoints check their request before touching the agent: a
    navigation without a URL, a click without a selector and a typing
    without a selector or with a null text are answered 400 with the state
    as it was.  An empty text is not a missing text: it is typed. *)
Theorem X14_endpoints_reject_incomplete_requests (r : Http.request) (s : state W) :
  (Http.falsy (Http.url r) = true ->
   Http.navigate_to_url eng r s = (s, Http.HTTPException 400 "URL is required"))
  /\ (Http.falsy (Http.selector r) = true ->
      Http.click_element eng r s
      = (s, Http.HTTPException 400 "Selector is required"))
  /\ (Http.falsy (Http.selector r) = true \/ Http.text r = None ->
      Http.type_text eng r s
      = (s, Http.HTTPException 400 "Selector and text are required"))
  /\ (forall sel,
        Http.selector r = Some sel -> Http.falsy (Some sel) = false ->
        Http.text r = Some "" ->
        Http.type_text eng r s = Http.guarded (type_text eng sel "") s).
Proof.
  destruct r as [u sel txt t].
  unfold Http.navigate_to_url, Http.click_element, Http.type_text, Http.reject;
    cbn.
  repeat split.
  - destruct u as [[| c u] |]; cbn; [reflexivity | discriminate | reflexivity].
  - destruct sel as [[| c sel] |]; cbn; [reflexivity | discriminate | reflexivity].
  - intros [H | H].
    + destruct sel as [[| c sel] |], txt; cbn in *;
        try reflexivity; discriminate.
    + cbn in H. subst txt. destruct sel as [[| c sel] |]; reflexivity.
  - intros sel' Hsel Hfalsy Htxt. cbn in *. subst.
    rewrite Hfalsy. reflexivity.
Qed.


(** X16.  When [browser.close()] raises, [/browser/close] answers 500 with
    the engine's message, and the agent keeps its handles: the session is
    not closed. *)
Theorem X16_close_endpoint_reports_engine_failure (s : state W) b w1 e :
  browser (self s) = Some b ->
  browser_close eng b (world s) = (w1, Raised e) ->
  Http.close_browser eng s =
    ({| self := self s; world := w1; trace := trace s ++ [EvBrowserClose b] |},
     Http.HTTPException 500 (str e)).
Proof.
  intros Hb Hclose. unfold Http.close_browser, Http.guarded.
  rewrite (close_raises_what_browser_close_raises eng s b w1 e Hb Hclose).
  reflexivity.
Qed.

(** X17.  [/browser/click] passes no timeout of the caller on.  For a
    request whose selector is a string that is not empty, whatever
    [timeout] the request carries, the endpoint answers as [click] on that
    selector does, and the one driver call made is the click, given
    30000 ms. *)
Theorem X17_click_endpoint_ignores_the_timeout
    (r : Http.request) (s : state W) p sel :
  page (self s) = Some p ->
  Http.selector r = Some sel ->
  Http.falsy (Some sel) = false ->
  Http.click_element eng r s = Http.guarded (click eng sel) s
  /\ trace (fst (Http.click_element eng r s))
     = (trace s ++ [EvClick p sel 30000])%list.
Proof.
  intros Hp Hsel Hfalsy. unfold Http.click_element.
  rewrite Hsel, Hfalsy. split; [reflexivity |].
  unfold Http.guarded.
  destruct s as [[b c pg pw] w tr]. simpl in Hp. subst pg.
  unfold click, try_except, bind, read, deref, call, ret; cbn.
  destruct (page_click eng p sel 30000 w) as [w' [[] | e]]; cbn;
    [reflexivity |].
  destruct (is_timeout e); reflexivity.
Qed.

End HttpLayer.

Lemma X16_witness_close_endpoint :
  Http.close_browser
    (Stub.engine (Stub.failing Stub.OBrowserClose Stub.target_closed Stub.healthy))
    (Stub.started Stub.blank)
  = ({| self := self (Stub.started Stub.blank); world := Stub.blank;
        trace := trace (Stub.started Stub.blank) ++ [EvBrowserClose (Browser 1)] |},
     Http.HTTPException 500 (str Stub.target_closed)).
Proof.
  exact (X16_close_endpoint_reports_engine_failure
           (Stub.engine (Stub.failing Stub.OBrowserClose Stub.target_closed Stub.healthy))
           (Stub.started Stub.blank) (Browser 1) Stub.blank Stub.target_closed
           eq_refl eq_refl).
Defined.

Lemma X17_witness_click_request_with_timeout :
  Http.click_element (Stub.engine Stub.healthy)
    {| Http.url := None; Http.selector := Some "#go";
       Http.text := None; Http.timeout := Some (PInt 5) |}
    (Stub.started Stub.blank)
  = Http.guarded (click (Stub.engine Stub.healthy) "#go") (Stub.started Stub.blank)
  /\ trace (fst (Http.click_element (Stub.engine Stub.healthy)
                   {| Http.url := None; Http.selector := Some "#go";
                      Http.text := None; Http.timeout := Some (PInt 5) |}
                   (Stub.started Stub.blank)))
     = (trace (Stub.started Stub.blank) ++ [EvClick (Page 3) "#go" 30000])%list.
Proof.
  exact (X17_click_endpoint_ignores_the_timeout (Stub.engine Stub.healthy)
           {| Http.url := None; Http.selector := Some "#go";
              Http.text := None; Http.timeout := Some (PInt 5) |}
           (Stub.started Stub.blank) (Page 3) "#go" eq_refl eq_refl eq_refl).
Defined.

Example click_request_with_timeout :
  trace (fst (Http.click_element (Stub.engine Stub.healthy)
                {| Http.url := None; Http.selector := Some "#go";
                   Http.text := None; Http.timeout := Some (PInt 5) |}
                (Stub.started Stub.blank)))
  = [EvAsyncPlaywrightStart; EvChromiumLaunch (Playwright 0) false;
     EvNewContext (Browser 1); EvNewPage (BrowserContext 2);
     EvClick (Page 3) "#go" 30000].
Proof. reflexivity. Qed.

(** * The agent's tool *)

Section ToolLayer.

Context {W : Type} (eng : Engine.t W).
Variable parse : string -> Tool.parsed.
Variable lower : string -> string.
Variable json_dumps : dict -> string.
Variable format_exc : exn -> string.

#[local] Notation "'run'" :=
  (Tool._arun eng parse lower json_dumps format_exc) (only parsing).

(** Takes the branch of the action name at hand. *)
Ltac pick := cbv beta iota delta [String.eqb Ascii.eqb Bool.eqb].

(** X18.  [_arun] always returns a string: whatever the input, the parser
    and the engine do, no exception leaves the tool. *)
Theorem X18_tool_never_raises (tool_input : string) :
  never_raises (run tool_input).
Proof.
  unfold Tool._arun. apply never_raises_try_except.
  intros e. apply never_raises_ret.
Qed.

(** X19.  An input that does not parse, or that names an action the tool
    does not know, is answered with a message and no driver call: the
    parser's [ValueError] as "Invalid input format", any other failure of
    the parser as "Error in browser tool" with the traceback, an unknown
    action by its lower-cased name. *)
Theorem X19_tool_refuses_malformed_input (tool_input : string) (s : state W) :
  match parse tool_input with
  | Tool.Invalid e =>
      run tool_input s = (s, Returned ("Invalid input format: " ++ str e))
  | Tool.Crashed e =>
      run tool_input s =
        (s, Returned ("Error in browser tool: " ++ str e ++ Tool.NL ++ Tool.NL
                      ++ format_exc e))
  | Tool.Valid i =>
      existsb (String.eqb (lower (Tool.action i))) Tool.known_actions = false ->
      run tool_input s =
        (s, Returned ("Error: Unknown action '" ++ lower (Tool.action i) ++ "'"))
  end.
Proof.
  unfold Tool._arun, try_except.
  destruct (parse tool_input) as [i | e | e]; try reflexivity.
  unfold Tool.known_actions. cbn [existsb]. intros H.
  repeat (apply orb_false_elim in H; destruct H as [?H H]).
  repeat match goal with
         | E : String.eqb _ _ = false |- _ => rewrite E; clear E
         end.
  reflexivity.
Qed.

(** X20.  An action whose argument is missing is answered with a message,
    before any driver call: [navigate] without a URL or with an empty one,
    [click] without a selector, [type] without a selector or a text, and
    the two cookie actions without cookies or with an empty list. *)
Theorem X20_tool_requires_the_arguments_of_an_action
    (tool_input : string) (i : Tool.BrowserToolInput) (s : state W) :
  parse tool_input = Tool.Valid i ->
  (lower (Tool.action i) = "navigate" -> Http.falsy (Tool.url i) = true ->
   run tool_input s
   = (s, Returned "Error: URL is required for 'navigate' action"))
  /\ (lower (Tool.action i) = "click" -> Http.falsy (Tool.selector i) = true ->
      run tool_input s
      = (s, Returned "Error: Selector is required for 'click' action"))
  /\ (lower (Tool.action i) = "type" ->
      Http.falsy (Tool.selector i) = true \/ Tool.text i = None ->
      run tool_input s
      = (s, Returned "Error: Selector and text are required for 'type' action"))
  /\ (lower (Tool.action i) = "add_cookies" ->
      Tool.no_cookies (Tool.cookies i) = true ->
      run tool_input s
      = (s, Returned "Error: Cookies are required for 'add_cookies' action"))
  /\ (lower (Tool.action i) = "delete_cookies" ->
      Tool.no_cookies (Tool.cookies i) = true ->
      run tool_input s
      = (s, Returned "Error: Cookies are required for 'delete_cookies' action")).
Proof.
  intros Hparse. unfold Tool._arun, try_except. rewrite Hparse.
  destruct i as [act u sel txt cs]. cbn.
  repeat split; intros -> H; cbn.
  - destruct u as [[| c u] |]; cbn in *; try reflexivity; discriminate.
  - destruct sel as [[| c sel] |]; cbn in *; try reflexivity; discriminate.
  - destruct H as [H | H].
    + destruct sel as [[| c sel] |], txt; cbn in *;
        try reflexivity; discriminate.
    + subst txt. destruct sel as [[| c sel] |]; reflexivity.
  - destruct cs as [[| c cs] |]; cbn in *; try reflexivity; discriminate.
  - destruct cs as [[| c cs] |]; cbn in *; try reflexivity; discriminate.
Qed.

(** X21.  With its argument present, an action of the tool is the agent's
    method: the tool returns the JSON text of the agent's result and
    leaves the state the agent left.  [navigate] is always given the
    default timeout of 30000 ms, and the action name counts after
    lower-casing. *)
Theorem X21_tool_returns_the_result_of_the_agent
    (tool_input : string) (i : Tool.BrowserToolInput) (s : state W) :
  parse tool_input = Tool.Valid i ->
  let answers (m : M W dict) :=
    exists s' d,
      m s = (s', Returned d)
      /\ run tool_input s = (s', Returned (json_dumps d)) in
  (forall u, lower (Tool.action i) = "navigate" -> Tool.url i = Some u ->
             Http.falsy (Some u) = false ->
             answers (navigate eng u 30000))
  /\ (forall sel, lower (Tool.action i) = "click" ->
                  Tool.selector i = Some sel -> Http.falsy (Some sel) = false ->
                  answers (click eng sel))
  /\ (forall sel txt, lower (Tool.action i) = "type" ->
                      Tool.selector i = Some sel ->
                      Http.falsy (Some sel) = false ->
                      Tool.text i = Some txt ->
                      answers (type_text eng sel txt))
  /\ (lower (Tool.action i) = "screenshot" -> answers (take_screenshot eng))
  /\ (lower (Tool.action i) = "get_content" -> answers (get_content eng))
  /\ (lower (Tool.action i) = "get_cookies" -> answers (get_cookies eng))
  /\ (forall cs, lower (Tool.action i) = "add_cookies" ->
                 Tool.cookies i = Some cs -> Tool.no_cookies (Some cs) = false ->
                 answers (add_cookies eng cs))
  /\ (forall cs, lower (Tool.action i) = "delete_cookies" ->
                 Tool.cookies i = Some cs -> Tool.no_cookies (Some cs) = false ->
                 answers (delete_cookies eng cs)).
Proof.
  intros Hparse answers.
  assert (A : forall m : M W dict, never_raises m ->
              forall k : M W string,
                k = Tool.dumped json_dumps m ->
                exists s' d, m s = (s', Returned d)
                  /\ try_except k
                       (fun e => ret ("Error in browser tool: " ++ str e
                                      ++ Tool.NL ++ Tool.NL ++ format_exc e)) s
                     = (s', Returned (json_dumps d))).
  { intros m Hm k ->. destruct (Hm s) as (s' & d & E). exists s', d.
    split; [exact E |].
    unfold try_except, Tool.dumped, bind, ret. rewrite E. reflexivity. }
  unfold answers, Tool._arun. rewrite Hparse.
  destruct i as [act u sel txt cs].
  cbn [Tool.action Tool.url Tool.selector Tool.text Tool.cookies].
  repeat split.
  - intros u' -> -> Hf. pick. rewrite Hf.
    apply A; [apply navigate_never_raises | reflexivity].
  - intros sel' -> -> Hf. pick. rewrite Hf.
    apply A; [apply click_never_raises | reflexivity].
  - intros sel' txt' -> -> Hf ->. pick. rewrite Hf.
    apply A; [apply type_text_never_raises | reflexivity].
  - intros ->. pick. apply A; [apply take_screenshot_never_raises | reflexivity].
  - intros ->. pick. apply A; [apply get_content_never_raises | reflexivity].
  - intros ->. pick. apply A; [apply get_cookies_never_raises | reflexivity].
  - intros cs' -> -> Hf. pick. rewrite Hf.
    apply A; [apply add_cookies_never_raises | reflexivity].
  - intros cs' -> -> Hf. pick. rewrite Hf.
    apply A; [apply delete_cookies_never_raises | reflexivity].
Qed.

End ToolLayer.

Lemma X20_witness_navigate_without_url :
  let eng := Stub.engine Stub.healthy in
  let i := ToolStub.input "NAVIGATE" in
  let run := Tool._arun eng (ToolStub.accept i) ToolStub.lower
               ToolStub.json_dumps ToolStub.format_exc in
  let s := Stub.started Stub.blank in
  (ToolStub.lower (Tool.action i) = "navigate" -> Http.falsy (Tool.url i) = true ->
   run "{}" s = (s, Returned "Error: URL is required for 'navigate' action"))
  /\ (ToolStub.lower (Tool.action i) = "click" ->
      Http.falsy (Tool.selector i) = true ->
      run "{}" s = (s, Returned "Error: Selector is required for 'click' action"))
  /\ (ToolStub.lower (Tool.action i) = "type" ->
      Http.falsy (Tool.selector i) = true \/ Tool.text i = None ->
      run "{}" s
      = (s, Returned "Error: Selector and text are required for 'type' action"))
  /\ (ToolStub.lower (Tool.action i) = "add_cookies" ->
      Tool.no_cookies (Tool.cookies i) = true ->
      run "{}" s
      = (s, Returned "Error: Cookies are required for 'add_cookies' action"))
  /\ (ToolStub.lower (Tool.action i) = "delete_cookies" ->
      Tool.no_cookies (Tool.cookies i) = true ->
      run "{}" s
      = (s, Returned "Error: Cookies are required for 'delete_cookies' action")).
Proof.
  exact (X20_tool_requires_the_arguments_of_an_action
           (Stub.engine Stub.healthy) (ToolStub.accept (ToolStub.input "NAVIGATE"))
           ToolStub.lower ToolStub.json_dumps ToolStub.format_exc
           "{}" (ToolStub.input "NAVIGATE") (Stub.started Stub.blank) eq_refl).
Defined.

Example tool_navigate_without_url :
  Tool._arun (Stub.engine Stub.healthy)
    (ToolStub.accept (ToolStub.input "NAVIGATE")) ToolStub.lower
    ToolStub.json_dumps ToolStub.format_exc "{}" (Stub.started Stub.blank)
  = (Stub.started Stub.blank,
     Returned "Error: URL is required for 'navigate' action").
Proof. reflexivity. Qed.

Lemma X21_witness_screenshot_through_the_tool :
  let eng := Stub.engine Stub.healthy in
  let i := ToolStub.input "Screenshot" in
  let run := Tool._arun eng (ToolStub.accept i) ToolStub.lower
               ToolStub.json_dumps ToolStub.format_exc in
  let s := Stub.started Stub.blank in
  let answers (m : M Stub.world dict) :=
    exists s' d,
      m s = (s', Returned d)
      /\ run "{}" s = (s', Returned (ToolStub.json_dumps d)) in
  (forall u, ToolStub.lower (Tool.action i) = "navigate" -> Tool.url i = Some u ->
             Http.falsy (Some u) = false ->
             answers (navigate eng u 30000))
  /\ (forall sel, ToolStub.lower (Tool.action i) = "click" ->
                  Tool.selector i = Some sel -> Http.falsy (Some sel) = false ->
                  answers (click eng sel))
  /\ (forall sel txt, ToolStub.lower (Tool.action i) = "type" ->
                      Tool.selector i = Some sel ->
                      Http.falsy (Some sel) = false ->
                      Tool.text i = Some txt ->
                      answers (type_text eng sel txt))
  /\ (ToolStub.lower (Tool.action i) = "screenshot" -> answers (take_screenshot eng))
  /\ (ToolStub.lower (Tool.action i) = "get_content" -> answers (get_content eng))
  /\ (ToolStub.lower (Tool.action i) = "get_cookies" -> answers (get_cookies eng))
  /\ (forall cs, ToolStub.lower (Tool.action i) = "add_cookies" ->
                 Tool.cookies i = Some cs -> Tool.no_cookies (Some cs) = false ->
                 answers (add_cookies eng cs))
  /\ (forall cs, ToolStub.lower (Tool.action i) = "delete_cookies" ->
                 Tool.cookies i = Some cs -> Tool.no_cookies (Some cs) = false ->
                 answers (delete_cookies eng cs)).
Proof.
  exact (X21_tool_returns_the_result_of_the_agent
           (Stub.engine Stub.healthy) (ToolStub.accept (ToolStub.input "Screenshot"))
           ToolStub.lower ToolStub.json_dumps ToolStub.format_exc
           "{}" (ToolStub.input "Screenshot") (Stub.started Stub.blank) eq_refl).
Defined.

Example tool_screenshot :
  snd (Tool._arun (Stub.engine Stub.healthy)
         (ToolStub.accept (ToolStub.input "Screenshot")) ToolStub.lower
         ToolStub.json_dumps ToolStub.format_exc "{}" (Stub.started Stub.blank))
  = Returned ("screenshot" ++ Tool.NL ++ "type" ++ Tool.NL).
Proof. reflexivity. Qed.

Example tool_unknown_action :
  snd (Tool._arun (Stub.engine Stub.healthy)
         (ToolStub.accept (ToolStub.input "Scroll")) ToolStub.lower
         ToolStub.json_dumps ToolStub.format_exc "{}" (Stub.started Stub.blank))
  = Returned "Error: Unknown action 'scroll'".
Proof. reflexivity. Qed.

(** * The language-model client *)

Section ChatLayer.

Context {W : Type}.
Variable create : OpenRouter.api_request -> W -> W * OpenRouter.api_result.

Lemma describe_is_not_empty m f :
  exists c e, OpenRouter.describe m f = String c e.
Proof. destruct f; cbn; eexists _, _; reflexivity. Qed.

Lemma try_models_outcome self kwargs message models last w sent :
  match OpenRouter.try_models create self kwargs message models last w sent with
  | ((w', sent'), r) =>
      exists n,
        (n <= length models)%nat
        /\ sent' = (sent ++ map (OpenRouter.request_for self kwargs message)
                               (firstn n models))%list
        /\ match r with
           | inl d =>
               (0 < n)%nat
               /\ get d "success" = Some (PBool true)
               /\ exists m, nth_error models (pred n) = Some m
                            /\ get d "model_used" = Some (PStr m)
           | inr e =>
               n = length models
               /\ match models with
                  | [] => e = last
                  | _ :: _ =>
                      exists f, e = Some (OpenRouter.describe (List.last models "") f)
                  end
           end
  end.
Proof.
  revert last w sent.
  induction models as [| m rest IH]; intros last w sent; cbn [OpenRouter.try_models].
  - exists 0%nat. cbn. rewrite app_nil_r. repeat split; lia.
  - destruct (create (OpenRouter.request_for self kwargs message m) w)
      as [w' [response | f]].
    + destruct (OpenRouter.choices response) as [| first others].
      * specialize (IH (Some (OpenRouter.describe m
                                 (OpenRouter.OtherException "list index out of range")))
                      w' (sent ++ [OpenRouter.request_for self kwargs message m])%list).
        destruct (OpenRouter.try_models _ _ _ _ rest _ _ _) as [[w2 sent2] r].
        destruct IH as (n & Hn & Hsent & Hr). exists (S n).
        split; [cbn; lia |]. split.
        { rewrite Hsent. cbn. rewrite <- app_assoc. reflexivity. }
        destruct r as [d | e].
        { destruct Hr as (Hpos & Hs & m' & Hnth & Hm). repeat split; try lia; try assumption.
          exists m'. split; [| assumption]. destruct n; [lia |]. exact Hnth. }
        { destruct Hr as [-> Hr]. split; [reflexivity |].
          destruct rest as [| m2 rest]; [subst e; eexists; reflexivity | exact Hr]. }
      * exists 1%nat. cbn. repeat split; try lia. exists m. split; reflexivity.
    + specialize (IH (Some (OpenRouter.describe m f))
                      w' (sent ++ [OpenRouter.request_for self kwargs message m])%list).
      destruct (OpenRouter.try_models _ _ _ _ rest _ _ _) as [[w2 sent2] r].
      destruct IH as (n & Hn & Hsent & Hr). exists (S n).
      split; [cbn; lia |]. split.
      { rewrite Hsent. cbn. rewrite <- app_assoc. reflexivity. }
      destruct r as [d | e].
      { destruct Hr as (Hpos & Hs & m' & Hnth & Hm). repeat split; try lia; try assumption.
        exists m'. split; [| assumption]. destruct n; [lia |]. exact Hnth. }
      { destruct Hr as [-> Hr]. split; [reflexivity |].
        destruct rest as [| m2 rest]; [subst e; eexists; reflexivity | exact Hr]. }
Qed.

Lemma request_for_key self self' kwargs message :
  OpenRouter.api_key self' = OpenRouter.api_key self ->
  OpenRouter.request_for self' kwargs message
  = OpenRouter.request_for self kwargs message.
Proof. intros H. unfold OpenRouter.request_for. rewrite H. reflexivity. Qed.

(** Past the models the service refuses, the loop goes on with the rest,
    from the world the refusals left and with one request sent for each. *)
Lemma try_models_past_the_refused self kwargs message pre rest w w1 :
  refused create (OpenRouter.request_for self kwargs message) pre w w1 ->
  forall last sent,
  exists last',
    OpenRouter.try_models create self kwargs message (pre ++ rest) last w sent
    = OpenRouter.try_models create self kwargs message rest last' w1
        (sent ++ map (OpenRouter.request_for self kwargs message) pre)%list.
Proof.
  induction 1 as [w | m pre' w w' f Hf Hrest IH]; intros last sent.
  - exists last. cbn. rewrite app_nil_r. reflexivity.
  - destruct (IH (Some (OpenRouter.describe m f))
                (sent ++ [OpenRouter.request_for self kwargs message m])%list)
      as (last' & E).
    exists last'. cbn [app OpenRouter.try_models map].
    destruct (create (OpenRouter.request_for self kwargs message m) w)
      as [w2 [response | f0]]; cbn [fst snd refusal] in Hf, E.
    + destruct (OpenRouter.choices response) as [| first others];
        [| discriminate].
      injection Hf as <-. rewrite E, <- app_assoc. reflexivity.
    + injection Hf as <-. rewrite E, <- app_assoc. reflexivity.
Qed.

(** X22.  [chat] asks the models in order, the given model (or, without
    one, the client's free models) first and the fallbacks after, and stops
    at the first request that completes with a choice.  When the service
    refuses (by an exception, or by a completion without choices) the
    models before one and completes the request for that one with a first
    choice, [chat] has sent one request for each of these models, in
    order, and none for the models after; its result is the success
    dictionary with the content of that first choice, the name of that
    model and the completion. *)
Theorem X22_chat_stops_at_the_first_model_that_answers
    self message model fallbacks kwargs w sent
    pre m post w1 w2 response first others :
  OpenRouter.models_for self model fallbacks = (pre ++ m :: post)%list ->
  refused create (OpenRouter.request_for self kwargs message) pre w w1 ->
  create (OpenRouter.request_for self kwargs message m) w1
  = (w2, OpenRouter.Completed response) ->
  OpenRouter.choices response = first :: others ->
  OpenRouter.chat create self message model fallbacks kwargs w sent
  = (((if Http.falsy model
       then {| OpenRouter.api_key := OpenRouter.api_key self;
               OpenRouter.free_models := (pre ++ m :: post)%list |}
       else self),
      (w2, (sent ++ map (OpenRouter.request_for self kwargs message)
                        (pre ++ [m]))%list)),
     [("success", PBool true);
      ("content", match OpenRouter.content first with
                  | Some t => PStr t
                  | None => PNone
                  end);
      ("model_used", PStr m);
      ("full_response", OpenRouter.response_value response)]).
Proof.
  intros Hmodels Hpre Hm Hfirst.
  unfold OpenRouter.chat. rewrite Hmodels.
  set (self' := if Http.falsy model then _ else self).
  assert (Hkey : OpenRouter.api_key self' = OpenRouter.api_key self)
    by (unfold self'; destruct (Http.falsy model); reflexivity).
  rewrite <- (request_for_key self self' kwargs message Hkey) in Hpre, Hm |- *.
  destruct (try_models_past_the_refused self' kwargs message pre (m :: post)
              w w1 Hpre None sent) as (last' & E).
  rewrite E. cbn [OpenRouter.try_models]. rewrite Hm, Hfirst.
  rewrite map_app, app_assoc. reflexivity.
Qed.

(** X23.  [chat] fails when the service refuses every model, and the error
    it reports is that of the last one.  When the models before the last
    are refused and the request for the last one raises (or completes
    without choices, which raises the [IndexError] of [choices[0]]), [chat]
    has sent one request for each model, and its result has [success]
    false, the message of that last exception worded by its kind and
    naming the last model, and the list of all the models. *)
Theorem X23_chat_reports_the_failure_of_the_last_model
    self message model fallbacks kwargs w sent pre m w1 f :
  OpenRouter.models_for self model fallbacks = (pre ++ [m])%list ->
  refused create (OpenRouter.request_for self kwargs message) pre w w1 ->
  refusal (snd (create (OpenRouter.request_for self kwargs message m) w1))
  = Some f ->
  OpenRouter.chat create self message model fallbacks kwargs w sent
  = (((if Http.falsy model
       then {| OpenRouter.api_key := OpenRouter.api_key self;
               OpenRouter.free_models := (pre ++ [m])%list |}
       else self),
      (fst (create (OpenRouter.request_for self kwargs message m) w1),
       (sent ++ map (OpenRouter.request_for self kwargs message)
                    (pre ++ [m]))%list)),
     [("success", PBool false);
      ("error", PStr (OpenRouter.describe m f));
      ("models_tried", PList (map PStr (pre ++ [m])))]).
Proof.
  intros Hmodels Hpre Hm.
  unfold OpenRouter.chat. rewrite Hmodels.
  set (self' := if Http.falsy model then _ else self).
  assert (Hkey : OpenRouter.api_key self' = OpenRouter.api_key self)
    by (unfold self'; destruct (Http.falsy model); reflexivity).
  rewrite <- (request_for_key self self' kwargs message Hkey) in Hpre, Hm |- *.
  destruct (try_models_past_the_refused self' kwargs message pre [m]
              w w1 Hpre None sent) as (last' & E).
  rewrite E. cbn [OpenRouter.try_models].
  destruct (describe_is_not_empty m f) as (c & t & Ed).
  destruct (create (OpenRouter.request_for self' kwargs message m) w1)
    as [w2 [response | f0]]; cbn [fst snd refusal] in Hm |- *.
  - destruct (OpenRouter.choices response) as [| first others];
      [| discriminate].
    injection Hm as <-. rewrite Ed.
    rewrite (map_app (OpenRouter.request_for self' kwargs message)), app_assoc.
    reflexivity.
  - injection Hm as <-. rewrite Ed.
    rewrite (map_app (OpenRouter.request_for self' kwargs message)), app_assoc.
    reflexivity.
Qed.

(** X24.  Without a model, [chat] works on the client's own list of free
    models: the fallbacks it is given stay in that list after the call, so
    a second call with the same arguments asks them twice.  With a model,
    the client's list is left alone.  The key never changes. *)
Theorem X24_chat_without_a_model_extends_the_free_models
    self message model fallbacks kwargs w sent :
  let self' := fst (fst (OpenRouter.chat create self message model fallbacks kwargs w sent)) in
  OpenRouter.api_key self' = OpenRouter.api_key self
  /\ OpenRouter.free_models self'
     = (if Http.falsy model
        then (OpenRouter.free_models self
              ++ match fallbacks with Some fs => fs | None => [] end)%list
        else OpenRouter.free_models self)
  /\ (Http.falsy model = true ->
      OpenRouter.models_for self' model fallbacks
      = ((OpenRouter.free_models self
          ++ match fallbacks with Some fs => fs | None => [] end)
         ++ match fallbacks with Some fs => fs | None => [] end)%list).
Proof.
  unfold OpenRouter.chat.
  destruct (OpenRouter.try_models _ _ _ _ _ _ _ _) as [[w' sent'] [d | e]];
    cbn [fst];
    (destruct model as [[| c m] |]; cbn;
     destruct fallbacks as [[| f fs] |]; cbn;
     rewrite ?app_nil_r; repeat split; try reflexivity; discriminate).
Qed.


(** X25.  [/chat] sends exactly one request, for the model of the request
    (when it is not empty), with the request's temperature and token limit:
    the [fallback_models] of the request are never asked.  A successful
    answer names that model; a failed one names the model "none" and has
    no content. *)
Theorem X25_chat_endpoint_asks_the_requested_model_only
    validation_error request client w sent :
  OpenRouter.requested_model request <> "" ->
  match OpenRouter.chat_endpoint create validation_error request client w sent with
  | ((client', (w', sent')), resp) =>
      client' = client
      /\ sent' = (sent ++
           [{| OpenRouter.base_url := "https://openrouter.ai/api/v1";
               OpenRouter.key := OpenRouter.api_key client;
               OpenRouter.http_referer :=
                 PStr "https://github.com/yourusername/avatar-crew";
               OpenRouter.x_title := PStr "Avatar-Crew";
               OpenRouter.model := OpenRouter.requested_model request;
               OpenRouter.user_message := OpenRouter.message request;
               OpenRouter.temperature :=
                 PFloat (OpenRouter.requested_temperature request);
               OpenRouter.max_tokens :=
                 PInt (OpenRouter.requested_max_tokens request) |}])%list
      /\ (if OpenRouter.success resp
          then OpenRouter.model_used resp = OpenRouter.requested_model request
               /\ OpenRouter.error resp = ""
          else OpenRouter.model_used resp = "none"
               /\ OpenRouter.response_content resp = "")
  end.
Proof.
  destruct request as [msg [| c m] fbs temp maxt]; cbn; [congruence |].
  intros _.
  unfold OpenRouter.chat_endpoint, OpenRouter.chat, OpenRouter.models_for; cbn.
  unfold OpenRouter.request_for at 1; cbn.
  match goal with |- context [create ?rq w] =>
    destruct (create rq w) as [w' [[[| [[t |]] others]] | f]] end; cbn;
    repeat split.
Qed.

End ChatLayer.

(** X26.  A client is built only with a key: the argument when it is not
    empty, else the value of [OPENROUTER_API_KEY]; with neither the
    constructor raises a [ValueError].  A new client holds the three
    default free models. *)
Theorem X26_client_needs_a_key (api_key env : option string) :
  match OpenRouter.__init__ api_key env with
  | Returned c =>
      OpenRouter.api_key c <> ""
      /\ Some (OpenRouter.api_key c) = (if Http.falsy api_key then env else api_key)
      /\ OpenRouter.free_models c = OpenRouter.DEFAULT_FREE_MODELS
  | Raised e =>
      Http.falsy api_key = true /\ Http.falsy env = true
      /\ exists msg, e = PyException "ValueError" msg
  end.
Proof.
  destruct api_key as [[| c k] |], env as [[| c' k'] |]; cbn;
    repeat split; try discriminate; eauto.
Qed.

Example chat_falls_back :
  let client := {| OpenRouter.api_key := "sk-test";
                   OpenRouter.free_models := OpenRouter.DEFAULT_FREE_MODELS |} in
  let r := OpenRouter.chat (OpenRouter.scripted ["google/gemma-2-9b-it:free"; "x"])
             client "hi" None (Some ["x"]) [] tt [] in
  get (snd r) "model_used" = Some (PStr "google/gemma-2-9b-it:free")
  /\ map OpenRouter.model (snd (snd (fst r)))
     = ["meta-llama/llama-3.3-70b-instruct:free";
        "mistralai/mistral-7b-instruct:free";
        "google/gemma-2-9b-it:free"]
  /\ OpenRouter.free_models (fst (fst r))
     = (OpenRouter.DEFAULT_FREE_MODELS ++ ["x"])%list.
Proof. repeat split. Qed.

Lemma X22_witness_chat_falls_back :
  OpenRouter.chat (OpenRouter.scripted ["google/gemma-2-9b-it:free"; "x"])
    {| OpenRouter.api_key := "sk-test";
       OpenRouter.free_models := OpenRouter.DEFAULT_FREE_MODELS |}
    "hi" None (Some ["x"]) [] tt []
  = (((if Http.falsy None
       then {| OpenRouter.api_key := "sk-test";
               OpenRouter.free_models :=
                 (["meta-llama/llama-3.3-70b-instruct:free";
                   "mistralai/mistral-7b-instruct:free"]
                  ++ "google/gemma-2-9b-it:free" :: ["x"])%list |}
       else {| OpenRouter.api_key := "sk-test";
               OpenRouter.free_models := OpenRouter.DEFAULT_FREE_MODELS |}),
      (tt, ([] ++ map (OpenRouter.request_for
                         {| OpenRouter.api_key := "sk-test";
                            OpenRouter.free_models :=
                              OpenRouter.DEFAULT_FREE_MODELS |} [] "hi")
                      (["meta-llama/llama-3.3-70b-instruct:free";
                        "mistralai/mistral-7b-instruct:free"]
                       ++ ["google/gemma-2-9b-it:free"]))%list)),
     [("success", PBool true);
      ("content", match OpenRouter.content
                          {| OpenRouter.content :=
                               Some "google/gemma-2-9b-it:free" |} with
                  | Some t => PStr t
                  | None => PNone
                  end);
      ("model_used", PStr "google/gemma-2-9b-it:free");
      ("full_response",
       OpenRouter.response_value
         {| OpenRouter.choices :=
              [{| OpenRouter.content := Some "google/gemma-2-9b-it:free" |}] |})]).
Proof.
  apply (X22_chat_stops_at_the_first_model_that_answers
           (OpenRouter.scripted ["google/gemma-2-9b-it:free"; "x"])
           {| OpenRouter.api_key := "sk-test";
              OpenRouter.free_models := OpenRouter.DEFAULT_FREE_MODELS |}
           "hi" None (Some ["x"]) [] tt []
           ["meta-llama/llama-3.3-70b-instruct:free";
            "mistralai/mistral-7b-instruct:free"]
           "google/gemma-2-9b-it:free" ["x"] tt tt
           {| OpenRouter.choices :=
                [{| OpenRouter.content := Some "google/gemma-2-9b-it:free" |}] |}
           {| OpenRouter.content := Some "google/gemma-2-9b-it:free" |} []).
  - reflexivity.
  - apply refused_next with (f := OpenRouter.RateLimitError "429");
      [reflexivity |].
    apply refused_next with (f := OpenRouter.RateLimitError "429");
      [reflexivity |].
    apply refused_none.
  - reflexivity.
  - reflexivity.
Defined.

Lemma X23_witness_every_model_rate_limited :
  OpenRouter.chat (OpenRouter.scripted [])
    {| OpenRouter.api_key := "sk-test";
       OpenRouter.free_models := OpenRouter.DEFAULT_FREE_MODELS |}
    "hi" None None [] tt []
  = (((if Http.falsy None
       then {| OpenRouter.api_key := "sk-test";
               OpenRouter.free_models :=
                 (["meta-llama/llama-3.3-70b-instruct:free";
                   "mistralai/mistral-7b-instruct:free"]
                  ++ ["google/gemma-2-9b-it:free"])%list |}
       else {| OpenRouter.api_key := "sk-test";
               OpenRouter.free_models := OpenRouter.DEFAULT_FREE_MODELS |}),
      (fst (OpenRouter.scripted []
              (OpenRouter.request_for
                 {| OpenRouter.api_key := "sk-test";
                    OpenRouter.free_models := OpenRouter.DEFAULT_FREE_MODELS |}
                 [] "hi" "google/gemma-2-9b-it:free") tt),
       ([] ++ map (OpenRouter.request_for
                     {| OpenRouter.api_key := "sk-test";
                        OpenRouter.free_models :=
                          OpenRouter.DEFAULT_FREE_MODELS |} [] "hi")
                  (["meta-llama/llama-3.3-70b-instruct:free";
                    "mistralai/mistral-7b-instruct:free"]
                   ++ ["google/gemma-2-9b-it:free"]))%list)),
     [("success", PBool false);
      ("error", PStr (OpenRouter.describe "google/gemma-2-9b-it:free"
                        (OpenRouter.RateLimitError "429")));
      ("models_tried",
       PList (map PStr (["meta-llama/llama-3.3-70b-instruct:free";
                         "mistralai/mistral-7b-instruct:free"]
                        ++ ["google/gemma-2-9b-it:free"])))]).
Proof.
  apply (X23_chat_reports_the_failure_of_the_last_model
           (OpenRouter.scripted [])
           {| OpenRouter.api_key := "sk-test";
              OpenRouter.free_models := OpenRouter.DEFAULT_FREE_MODELS |}
           "hi" None None [] tt []
           ["meta-llama/llama-3.3-70b-instruct:free";
            "mistralai/mistral-7b-instruct:free"]
           "google/gemma-2-9b-it:free" tt (OpenRouter.RateLimitError "429")).
  - reflexivity.
  - apply refused_next with (f := OpenRouter.RateLimitError "429");
      [reflexivity |].
    apply refused_next with (f := OpenRouter.RateLimitError "429");
      [reflexivity |].
    apply refused_none.
  - reflexivity.
Defined.

(** With no model to ask, no request is sent and the error is the default
    one. *)
Example chat_without_any_model :
  OpenRouter.chat (OpenRouter.scripted [])
    {| OpenRouter.api_key := "sk-test"; OpenRouter.free_models := [] |}
    "hi" None None [] tt []
  = (({| OpenRouter.api_key := "sk-test"; OpenRouter.free_models := [] |},
      (tt, [])),
     [("success", PBool false);
      ("error", PStr "All models failed");
      ("models_tried", PList [])]).
Proof. reflexivity. Qed.

Example every_model_rate_limited :
  get (snd (OpenRouter.chat (OpenRouter.scripted [])
              {| OpenRouter.api_key := "sk-test";
                 OpenRouter.free_models := OpenRouter.DEFAULT_FREE_MODELS |}
              "hi" None None [] tt []))
      "error"
  = Some (PStr "Rate limit exceeded for google/gemma-2-9b-it:free: 429").
Proof. reflexivity. Qed.

Lemma X25_witness_chat_request :
  match OpenRouter.chat_endpoint (OpenRouter.scripted ["google/gemini-pro:free"])
          "none is not an allowed value"
          {| OpenRouter.message := "hi";
             OpenRouter.requested_model := "anthropic/claude-2:free";
             OpenRouter.fallback_models :=
               ["google/gemini-pro:free"; "mistral/mistral-7b:free"];
             OpenRouter.requested_temperature := OpenRouter.FLOAT_0_7;
             OpenRouter.requested_max_tokens := 300 |}
          {| OpenRouter.api_key := "sk-test";
             OpenRouter.free_models := OpenRouter.DEFAULT_FREE_MODELS |}
          tt [] with
  | ((client', (w', sent')), resp) =>
      client' = {| OpenRouter.api_key := "sk-test";
                   OpenRouter.free_models := OpenRouter.DEFAULT_FREE_MODELS |}
      /\ sent' = ([] ++
           [{| OpenRouter.base_url := "https://openrouter.ai/api/v1";
               OpenRouter.key := "sk-test";
               OpenRouter.http_referer :=
                 PStr "https://github.com/yourusername/avatar-crew";
               OpenRouter.x_title := PStr "Avatar-Crew";
               OpenRouter.model := "anthropic/claude-2:free";
               OpenRouter.user_message := "hi";
               OpenRouter.temperature := PFloat OpenRouter.FLOAT_0_7;
               OpenRouter.max_tokens := PInt 300 |}])%list
      /\ (if OpenRouter.success resp
          then OpenRouter.model_used resp = "anthropic/claude-2:free"
               /\ OpenRouter.error resp = ""
          else OpenRouter.model_used resp = "none"
               /\ OpenRouter.response_content resp = "")
  end.
Proof.
  apply (X25_chat_endpoint_asks_the_requested_model_only
           (OpenRouter.scripted ["google/gemini-pro:free"])
           "none is not an allowed value"
           {| OpenRouter.message := "hi";
              OpenRouter.requested_model := "anthropic/claude-2:free";
              OpenRouter.fallback_models :=
                ["google/gemini-pro:free"; "mistral/mistral-7b:free"];
              OpenRouter.requested_temperature := OpenRouter.FLOAT_0_7;
              OpenRouter.requested_max_tokens := 300 |}
           {| OpenRouter.api_key := "sk-test";
              OpenRouter.free_models := OpenRouter.DEFAULT_FREE_MODELS |}
           tt []).
  discriminate.
Defined.

Example chat_request_is_not_retried :
  snd (OpenRouter.chat_endpoint (OpenRouter.scripted ["google/gemini-pro:free"])
         "none is not an allowed value"
         {| OpenRouter.message := "hi";
            OpenRouter.requested_model := "anthropic/claude-2:free";
            OpenRouter.fallback_models :=
              ["google/gemini-pro:free"; "mistral/mistral-7b:free"];
            OpenRouter.requested_temperature := OpenRouter.FLOAT_0_7;
            OpenRouter.requested_max_tokens := 300 |}
         {| OpenRouter.api_key := "sk-test";
            OpenRouter.free_models := OpenRouter.DEFAULT_FREE_MODELS |}
         tt [])
  = {| OpenRouter.success := false; OpenRouter.response_content := "";
       OpenRouter.model_used := "none";
       OpenRouter.error := "Rate limit exceeded for anthropic/claude-2:free: 429" |}.
Proof. reflexivity. Qed.

(** * The configuration of a language model *)

Lemma get_setitem_same (d : dict) k v : get (LLM.setitem d k v) k = Some v.
Proof.
  induction d as [| [k' v'] d IH]; cbn.
  - rewrite String.eqb_refl. reflexivity.
  - destruct (String.eqb k k') eqn:E; cbn; rewrite E; [reflexivity | exact IH].
Qed.

Lemma get_setitem_other (d : dict) k v k' :
  k' <> k -> get (LLM.setitem d k v) k' = get d k'.
Proof.
  intros Hne. induction d as [| [k0 v0] d IH]; cbn.
  - apply String.eqb_neq in Hne. rewrite Hne. reflexivity.
  - destruct (String.eqb k k0) eqn:E; cbn.
    + apply String.eqb_eq in E. subst k0.
      apply String.eqb_neq in Hne. rewrite Hne. reflexivity.
    + rewrite IH. reflexivity.
Qed.

Lemma get_setdefault_same (d : dict) k v :
  get (LLM.setdefault d k v) k
  = Some match get d k with Some v' => v' | None => v end.
Proof.
  unfold LLM.setdefault, has_key.
  destruct (get d k) eqn:E; [exact E | apply get_setitem_same].
Qed.

Lemma get_setdefault_other (d : dict) k v k' :
  k' <> k -> get (LLM.setdefault d k v) k' = get d k'.
Proof.
  intros Hne. unfold LLM.setdefault.
  destruct (has_key d k); [reflexivity | apply get_setitem_other, Hne].
Qed.

Section LLMConfig.

Variable lower : string -> string.
Variable getenv : string -> option string.

(** X27.  [LLMConfig] fills in what the caller left out and keeps what the
    caller set: the model name and, for OpenAI and Kimi, the temperature
    and the API key are the caller's when the key is there (an [api_key]
    passed as [None] stays [None]), else the default or the environment
    variable of the provider.  For the mock provider the temperature is
    0.7 whatever the caller asked, and no API key is added.  Every other
    option is passed on as given. *)
Theorem X27_config_keeps_what_the_caller_set provider kwargs :
  let c := LLM.__init__ lower getenv provider kwargs in
  let given k default :=
    Some match get kwargs k with Some v => v | None => default end in
  get (LLM.config c) "model_name"
    = given "model_name"
        (PStr match LLM.provider c with
              | LLM.OPENAI => "gpt-3.5-turbo"
              | LLM.KIMI => "k2"
              | LLM.MOCK => "mock-llm"
              end)
  /\ get (LLM.config c) "temperature"
     = match LLM.provider c with
       | LLM.MOCK => Some (PFloat OpenRouter.FLOAT_0_7)
       | _ => given "temperature" (PFloat OpenRouter.FLOAT_0_7)
       end
  /\ get (LLM.config c) "api_key"
     = match LLM.provider c with
       | LLM.OPENAI => given "api_key" (LLM.env_value (getenv "OPENAI_API_KEY"))
       | LLM.KIMI => given "api_key" (LLM.env_value (getenv "KIMI_API_KEY"))
       | LLM.MOCK => get kwargs "api_key"
       end
  /\ forall k,
       k <> "model_name" -> k <> "temperature" -> k <> "api_key" ->
       get (LLM.config c) k = get kwargs k.
Proof.
  cbv zeta. unfold LLM.__init__.
  set (p := match provider with inl member => member | inr name => _ end).
  cbn [LLM.provider LLM.config].
  assert (Hkey : forall (d : dict) variable,
            get (if has_key d "api_key" then d
                 else LLM.setitem d "api_key" (LLM.env_value (getenv variable)))
                "api_key"
            = Some match get d "api_key" with
                   | Some v => v
                   | None => LLM.env_value (getenv variable)
                   end).
  { intros d variable. unfold has_key.
    destruct (get d "api_key") eqn:E; [exact E | apply get_setitem_same]. }
  assert (Hother : forall (d : dict) variable k, k <> "api_key" ->
            get (if has_key d "api_key" then d
                 else LLM.setitem d "api_key" (LLM.env_value (getenv variable))) k
            = get d k).
  { intros d variable k Hk.
    destruct (has_key d "api_key"); [reflexivity | apply get_setitem_other, Hk]. }
  destruct p; repeat split.
  all: try (intros k H1 H2 H3).
  all: rewrite ?Hkey, ?Hother by congruence.
  all: rewrite ?get_setitem_same, ?get_setitem_other by congruence.
  all: rewrite ?get_setdefault_same, ?get_setdefault_other by congruence.
  all: rewrite ?get_setdefault_same, ?get_setdefault_other by congruence.
  all: try reflexivity.
Qed.

(** X28.  A provider given by name is looked up by its lower-cased name,
    and every name other than "openai" and "kimi" gives the mock provider;
    a provider given as a member of the enumeration is kept. *)
Theorem X28_unknown_provider_falls_back_to_mock (name : string) kwargs :
  (LLM.provider (LLM.__init__ lower getenv (inr name) kwargs) = LLM.MOCK
   <-> lower name <> "openai" /\ lower name <> "kimi")
  /\ forall member,
       LLM.provider (LLM.__init__ lower getenv (inl member) kwargs) = member.
Proof.
  split; [| reflexivity].
  unfold LLM.__init__, LLM.by_value. cbn [LLM.provider].
  destruct (String.eqb_spec (lower name) "openai") as [E1 | E1].
  - split; [discriminate | intros [H _]; contradiction].
  - destruct (String.eqb_spec (lower name) "kimi") as [E2 | E2].
    + split; [discriminate | intros [_ H]; contradiction].
    + destruct (String.eqb (lower name) "mock"); split; auto.
Qed.

End LLMConfig.

(** * Speech and lip-sync *)

Section VoiceLayer.

Context {W : Type}.
Variable post : Voice.posted -> W -> W * outcome Voice.response.

(** X29.  Without an ElevenLabs key [tts] returns an error and sends
    nothing.  With one it sends one POST, to the URL of the voice and with
    the key in its header; it returns the base64 of the response's bytes
    when the status is 200, an error naming the status and carrying the
    response text otherwise, and it lets an exception of the POST reach
    its caller. *)
Theorem X29_tts_returns_audio_only_for_status_200
    (key : option string) (text voice_id : string) (w : W) sent :
  match key with
  | Some (String c k) =>
      exists rq,
        Voice.to rq = "https://api.elevenlabs.io/v1/text-to-speech/" ++ voice_id
        /\ get (Voice.headers rq) "xi-api-key" = Some (PStr (String c k))
        /\ get (Voice.payload rq) "text" = Some (PStr text)
        /\ snd (fst (Voice.tts post key text voice_id w sent)) = (sent ++ [rq])%list
        /\ match post rq w with
           | (_, Returned r) =>
               snd (Voice.tts post key text voice_id w sent)
               = Returned
                   (if Voice.status_code r =? 200
                    then [("audio_base64", PStr (b64encode (Voice.content r)))]
                    else [("error", PStr ("TTS failed ("
                                          ++ Voice.str_int (Voice.status_code r) ++ ")"));
                          ("details", PStr (Voice.text r))])
           | (_, Raised e) =>
               snd (Voice.tts post key text voice_id w sent) = Raised e
           end
  | _ =>
      Voice.tts post key text voice_id w sent
      = ((w, sent), Returned [("error", PStr "ELEVENLABS_API_KEY not set")])
  end.
Proof.
  destruct key as [[| c k] |]; try reflexivity.
  unfold Voice.tts.
  match goal with |- context [post ?rq w] => exists rq end.
  split; [reflexivity |]. split; [reflexivity |]. split; [reflexivity |].
  match goal with |- context [post ?rq w] =>
    destruct (post rq w) as [w' [r | e]] end; cbn.
  - split; [reflexivity |]. destruct (Voice.status_code r =? 200); reflexivity.
  - split; reflexivity.
Qed.

(** X30.  Without a D-ID key [lip_sync] returns an error and sends
    nothing.  With one it sends one POST with the audio and the image; on
    status 201 it returns the [result_url] of the JSON answer, or the
    empty string when the answer has none; on another status an error
    naming it; and an exception of the POST or of reading the JSON reaches
    its caller. *)
Theorem X30_lip_sync_returns_a_video_only_for_status_201
    (key : option string) (audio_b64 image_url : string) (w : W) sent :
  match key with
  | Some (String c k) =>
      exists rq,
        Voice.to rq = "https://api.d-id.com/talks"
        /\ get (Voice.headers rq) "Authorization"
           = Some (PStr ("Basic " ++ String c k))
        /\ get (Voice.payload rq) "source_url" = Some (PStr image_url)
        /\ snd (fst (Voice.lip_sync post key audio_b64 image_url w sent))
           = (sent ++ [rq])%list
        /\ match post rq w with
           | (_, Returned r) =>
               if Voice.status_code r =? 201
               then match Voice.json r with
                    | Returned (PDict resp) =>
                        snd (Voice.lip_sync post key audio_b64 image_url w sent)
                        = Returned [("video_url",
                                     match get resp "result_url" with
                                     | Some v => v
                                     | None => PStr ""
                                     end)]
                    | Returned _ =>
                        exists e,
                          snd (Voice.lip_sync post key audio_b64 image_url w sent)
                          = Raised e
                    | Raised e =>
                        snd (Voice.lip_sync post key audio_b64 image_url w sent)
                        = Raised e
                    end
               else snd (Voice.lip_sync post key audio_b64 image_url w sent)
                    = Returned
                        [("error", PStr ("Lip-sync failed ("
                                         ++ Voice.str_int (Voice.status_code r) ++ ")"));
                         ("details", PStr (Voice.text r))]
           | (_, Raised e) =>
               snd (Voice.lip_sync post key audio_b64 image_url w sent) = Raised e
           end
  | _ =>
      Voice.lip_sync post key audio_b64 image_url w sent
      = ((w, sent), Returned [("error", PStr "D_ID_API_KEY not set")])
  end.
Proof.
  destruct key as [[| c k] |]; try reflexivity.
  unfold Voice.lip_sync.
  match goal with |- context [post ?rq w] => exists rq end.
  split; [reflexivity |]. split; [reflexivity |]. split; [reflexivity |].
  match goal with |- context [post ?rq w] =>
    destruct (post rq w) as [w' [r | e]] end; cbn.
  - split; [reflexivity |].
    destruct (Voice.status_code r =? 201); cbn; [| reflexivity].
    destruct (Voice.json r) as [[] | e]; cbn; eauto.
  - split; reflexivity.
Qed.

End VoiceLayer.

Example tts_of_three_bytes :
  snd (Voice.tts (Voice.answering 200) (Some "key") "Hello" "Rachel" tt [])
  = Returned [("audio_base64", PStr "TWFu")]
  /\ snd (Voice.tts (Voice.answering 401) (Some "key") "Hello" "Rachel" tt [])
     = Returned [("error", PStr "TTS failed (401)"); ("details", PStr "body")]
  /\ Voice.tts (Voice.answering 200) (Some "") "Hello" "Rachel" tt []
     = ((tt, []), Returned [("error", PStr "ELEVENLABS_API_KEY not set")]).
Proof. repeat split. Qed.

Example lip_sync_created :
  snd (Voice.lip_sync (Voice.answering 201) (Some "key") "TWFu" "https://img" tt [])
  = Returned [("video_url", PStr "https://d-id/video.mp4")]
  /\ snd (Voice.lip_sync (Voice.answering 200) (Some "key") "TWFu" "https://img" tt [])
     = Returned [("error", PStr "Lip-sync failed (200)"); ("details", PStr "body")].
Proof. repeat split. Qed.
